(** * Experiment scripts of epidemic-transfer-learning: model and properties

    A shallow embedding of
      - [src/gtl/training/__init__.py]                       (Module [training]),
      - [scripts/clustered_experiment.py]                    (Module [clustered_experiment]),
      - [scripts/experiments/sweep_airport.py]               (Module [sweep_airport]),
      - [scripts/experiments/to-port/sweep_triangle_detection.py]
                                                             (Module [sweep_triangle_detection]).

    Python code that mutates module globals, talks to wandb or may raise is
    written in a state-and-exception monad ([Py.M]); the libraries the scripts
    call (torch, dgl, sklearn, networkx, wandb, argparse) are interfaces whose
    operations are parameters of the model. Classifier scores and the
    averaged sweep metrics are exact rationals: the rounding of
    floating-point arithmetic is outside the model. *)

From stdpp Require Import gmap strings list fin_maps pretty.
From Stdlib Require Import QArith.

Set Warnings "-register-all".
Close Scope Q_scope.
Open Scope string_scope.
Open Scope list_scope.

(** ** Python run-time: exceptions, state, loops *)
Module Py.

Inductive exn : Type :=
| KeyError (key : string)
| IndexError
| ValueError (msg : string)
| ZeroDivisionError
| SystemExit (code : Z)
| AttributeError (name : string)
| TypeError
| LibraryError (what : string).

Inductive res (A : Type) : Type :=
| Ok (a : A)
| Raise (e : exn).
Arguments Ok {A} a.
Arguments Raise {A} e.

(** A computation over a store [S]: the store is kept when an exception
    propagates (what was done before the [raise] stays done). *)
Definition M (S A : Type) : Type := S -> res A * S.

Definition ret {S A} (a : A) : M S A := fun s => (Ok a, s).

Definition bind {S A B} (c : M S A) (k : A -> M S B) : M S B :=
  fun s =>
    match c s with
    | (Ok a, s') => k a s'
    | (Raise e, s') => (Raise e, s')
    end.

Definition raise {S A} (e : exn) : M S A := fun s => (Raise e, s).
Definition get {S} : M S S := fun s => (Ok s, s).
Definition modify {S} (f : S -> S) : M S unit := fun s => (Ok tt, f s).
Definition lift {S A} (r : res A) : M S A := fun s => (r, s).

(** [for x in xs: body(x)] *)
Fixpoint for_each {S A} (xs : list A) (body : A -> M S unit) : M S unit :=
  match xs with
  | [] => ret tt
  | x :: xs' => bind (body x) (fun _ => for_each xs' body)
  end.

(** [range(n)]: empty when [n <= 0]. *)
Definition range (n : Z) : list Z := Z.of_nat <$> seq 0 (Z.to_nat n).

(** [d[k]] on a dict kept as a finite map. *)
Definition getitem {S V} (d : gmap string V) (k : string) : M S V :=
  match d !! k with
  | Some v => ret v
  | None => raise (KeyError k)
  end.

End Py.

Notation "'let*' x ':=' c 'in' k" := (Py.bind c (fun x => k))
  (at level 10, x name, c at level 200, k at level 200, only parsing).
Notation "'let*' ' p ':=' c 'in' k" := (Py.bind c (fun x => let 'p := x in k))
  (at level 10, p pattern, c at level 200, k at level 200, only parsing).

(** ** [src/gtl/training/__init__.py] *)
Module training.
Section Train.

(** Graphs, keyword-argument values and trained models are opaque here. *)
Context {Graph value Model : Type}.

(** The two trainers the module imports ([_graphsage.train_graphsage_encoder]
    and [_egi.train_egi_encoder]); their bodies live in other modules. *)
Inductive trainer : Type :=
| train_graphsage_encoder
| train_egi_encoder.

(** What a trainer returns (or raises) on a graph and keyword arguments. *)
Variable run_trainer : trainer -> Graph -> gmap string value -> Py.res Model.

(** How a string literal becomes a keyword-argument value. *)
Variable str : string -> value.

(** A callable stored in the table: a function with the keywords frozen by
    [functools.partial] (none for a plain function). *)
Record callable : Type := partial { func : trainer; keywords : gmap string value }.

Definition _model_functions : gmap string callable :=
  {[ "graphsage" := partial train_graphsage_encoder ∅;
     "egi" := partial train_egi_encoder {[ "sampler_type" := str "egi" ]};
     "triangle" := partial train_egi_encoder {[ "sampler_type" := str "triangle" ]} ]}.

(** One record per trainer invocation. *)
Record call : Type := Call { c_fn : trainer; c_graph : Graph; c_kwargs : gmap string value }.

(** [f(graph, **kwargs)] for a table entry: [partial] merges its frozen
    keywords with the caller's, the caller's winning. *)
Definition invoke (f : callable) (graph : Graph) (kwargs : gmap string value)
  : Py.M (list call) Model :=
  let kw := kwargs ∪ keywords f in
  let* _ := Py.modify (fun log => log ++ [Call (func f) graph kw]) in
  Py.lift (run_trainer (func f) graph kw).

Definition train (model : string) (graph : Graph) (kwargs : gmap string value)
  : Py.M (list call) Model :=
  match _model_functions !! model with
  | None => Py.raise (Py.ValueError ("No such model: " +:+ model))
  | Some f => invoke f graph kwargs
  end.

(** The model names the table is expected to serve. *)
Definition model_names : list string := ["graphsage"; "egi"; "triangle"].

End Train.
End training.

(** ** [scripts/clustered_experiment.py] *)
Module clustered_experiment.

(** *** Experimental constants *)
Definition BATCHSIZE : Z := 50.
Definition LR : Q := 1 # 100.
Definition HIDDEN_LAYERS : Z := 32.
Definition PATIENCE : Z := 10.
Definition MIN_DELTA : Q := 1 # 100.
Definition EPOCHS : Z := 100.
Definition K : Z := 3.
Definition N_RUNS : Z := 5.

(** *** Parameters to sweep *)
Definition GRAPH_TYPES : list string := ["scalefree"; "poisson"].
Definition MODELS : list string := ["egi"; "triangle"].

(** Keyword arguments of [gtl.training.train_egi_encoder] as [_do_run]
    passes them. *)
Record encoder_args : Type := EncoderArgs {
  k : Z; lr : Q; n_hidden_layers : Z; sampler : string;
  save_weights_to : string; patience : Z; min_delta : Q; n_epochs : Z }.

(** *** The libraries the script calls

    Tensors are lists (a matrix is the list of its rows); node ids and
    tensor indices are naturals; [g.edges()] and the negative sampler
    return a pair of equally long id tensors, kept as a list of pairs.
    Random library calls thread the generator state [rng]. *)
Class Libraries : Type := {
  scalar : Type;
  tensor_mul : scalar -> scalar -> scalar;
  DGLGraph : Type;
  NxGraph : Type;
  Encoder : Type;
  Features : Type;
  Classifier : Type;
  rng : Type;
  (* networkx, dgl *)
  nx_read_edgelist : string -> Py.res NxGraph;
  dgl_from_networkx : NxGraph -> DGLGraph;
  dgl_edges : DGLGraph -> list (nat * nat);
  global_uniform_negative_sampling : DGLGraph -> nat -> rng -> list (nat * nat) * rng;
  (* gtl: [gtl.training.train_egi_encoder], [gtl.features.degree_bucketing]
     and the call of the trained encoder, as the script uses them *)
  train_egi_encoder : DGLGraph -> encoder_args -> rng -> Encoder * rng;
  degree_bucketing : DGLGraph -> Z -> Features;
  encoder_forward : Encoder -> DGLGraph -> Features -> list (list scalar);
  (* torch *)
  torch_randperm : nat -> rng -> list nat * rng;
  (* sklearn *)
  train_test_split :
    list (list scalar) -> list Z -> rng ->
    (list (list scalar) * list (list scalar) * list Z * list Z) * rng;
  SGDClassifier_fit : Z -> list (list scalar) -> list Z -> rng -> Classifier * rng;
  SGDClassifier_score : Classifier -> list (list scalar) -> list Z -> Q
}.

(** An entry of the file system, as [pathlib.Path.is_file] and
    [nx.read_edgelist] see it. *)
Inductive fs_entry : Type :=
| RegularFile (content : string)
| Directory.

Section Script.
Context `{L : Libraries}.

(** Calls that leave the process: the experiment tracker and the model
    code. *)
Inductive event : Type :=
| wandb_init (project name entity group : string) (config : list (string * string))
| wandb_finish
| wandb_summary_set (key : string) (v : Q)
| ev_train (g : DGLGraph) (args : encoder_args)
| ev_encode (g : DGLGraph)
| ev_fit (max_iter : Z) (train_edges : list (list scalar)) (train_classes : list Z)
| ev_score (val_edges : list (list scalar)) (val_classes : list Z).

Record world : Type := World {
  fs : gmap string fs_entry;
  stdout : list string;
  rng_state : rng;
  summary : gmap string Q;       (* wandb.summary *)
  trace : list event
}.

Definition emit (e : event) : Py.M world unit :=
  Py.modify (fun w => World (fs w) (stdout w) (rng_state w) (summary w) (trace w ++ [e])).

Definition print (line : string) : Py.M world unit :=
  Py.modify (fun w => World (fs w) (stdout w ++ [line]) (rng_state w) (summary w) (trace w)).

(** Run a random library call on the generator state of the world. *)
Definition random {A} (f : rng -> A * rng) : Py.M world A :=
  fun w => let '(a, r) := f (rng_state w) in
           (Py.Ok a, World (fs w) (stdout w) r (summary w) (trace w)).

(** [wandb.summary[key] = v] *)
Definition summary_set (key : string) (v : Q) : Py.M world unit :=
  let* _ := Py.modify (fun w =>
    World (fs w) (stdout w) (rng_state w) (<[key := v]> (summary w)) (trace w)) in
  emit (wandb_summary_set key v).

(** [sys.exit(code)] *)
Definition sys_exit {A} (code : Z) : Py.M world A := Py.raise (Py.SystemExit code).

Definition is_file (path : string) : Py.M world bool :=
  let* w := Py.get in
  Py.ret (match fs w !! path with Some (RegularFile _) => true | _ => false end).

(** [nx.read_edgelist(path)]: opens the path and parses its lines. *)
Definition read_edgelist (path : string) : Py.M world NxGraph :=
  let* w := Py.get in
  match fs w !! path with
  | Some (RegularFile content) => Py.lift (nx_read_edgelist content)
  | _ => Py.raise (Py.LibraryError "open")
  end.

Definition _load_edgelist (path : string) : Py.M world DGLGraph :=
  let* exists_ := is_file path in
  let* _ :=
    if negb exists_ then
      let* _ := print ("File " +:+ path +:+
                  " does not exist - generate the dataset before running this script!") in
      sys_exit 1
    else Py.ret tt in
  let* g := read_edgelist path in
  let g := dgl_from_networkx g in
  Py.ret g.

(** [DATA_DIR / name] *)
Definition joinpath (dir name : string) : string := dir +:+ "/" +:+ name.

(** The type of the [GRAPHS] table: graph type, clustering, role. *)
Abbreviation graphs := (gmap string (gmap string (gmap string DGLGraph))).

(** The module-level [GRAPHS = {...}]: the eight files are loaded in the
    order of the dict display when the module is imported. *)
Definition GRAPHS (DATA_DIR : string) : Py.M world graphs :=
  let* sc_src := _load_edgelist (joinpath DATA_DIR "powerlaw-clustered-100-0.edgelist") in
  let* sc_tgt := _load_edgelist (joinpath DATA_DIR "powerlaw-clustered-100-1.edgelist") in
  let* su_src := _load_edgelist (joinpath DATA_DIR "powerlaw-unclustered-100-0.edgelist") in
  let* su_tgt := _load_edgelist (joinpath DATA_DIR "powerlaw-unclustered-100-1.edgelist") in
  let* pc_src := _load_edgelist (joinpath DATA_DIR "poisson-clustered-100-0.edgelist") in
  let* pc_tgt := _load_edgelist (joinpath DATA_DIR "poisson-clustered-100-1.edgelist") in
  let* pu_src := _load_edgelist (joinpath DATA_DIR "poisson-unclustered-100-0.edgelist") in
  let* pu_tgt := _load_edgelist (joinpath DATA_DIR "poisson-unclustered-100-1.edgelist") in
  Py.ret
    {[ "scalefree" :=
         {[ "clustered" := {[ "src" := sc_src; "target" := sc_tgt ]};
            "unclustered" := {[ "src" := su_src; "target" := su_tgt ]} ]};
       "poisson" :=
         {[ "clustered" := {[ "src" := pc_src; "target" := pc_tgt ]};
            "unclustered" := {[ "src" := pu_src; "target" := pu_tgt ]} ]} ]}.

(** *** Tensor operations used by [_do_run] *)

(** [t[idx]] with an index tensor: out-of-range ids raise [IndexError]. *)
Definition index_select {A S} (t : list A) (idx : list nat) : Py.M S (list A) :=
  match mapM (fun i => t !! i) idx with
  | Some r => Py.ret r
  | None => Py.raise Py.IndexError
  end.

(** [a * b] on two matrices of one shape: element-wise. *)
Definition tensor_mul2 (a b : list (list scalar)) : list (list scalar) :=
  zip_with (zip_with tensor_mul) a b.

Definition num_edges (g : DGLGraph) : nat := length (dgl_edges g).
Definition torch_ones (n : nat) : list Z := replicate n 1%Z.
Definition torch_zeros (n : nat) : list Z := replicate n 0%Z.

(** Lines 130-163 (on [src_g]) and, word for word, 188-219 (on
    [target_g]): the shuffled edge embeddings and their labels. *)
Definition edge_dataset (g : DGLGraph) (embs : list (list scalar))
  : Py.M world (list (list scalar) * list Z) :=
  (* generate negative edges *)
  let* negative := random (global_uniform_negative_sampling g (num_edges g)) in
  let negative_us := negative.*1 in
  let negative_vs := negative.*2 in
  (* get and shuffle positive edges *)
  let* shuffle_mask := random (torch_randperm (num_edges g)) in
  let us := (dgl_edges g).*1 in
  let vs := (dgl_edges g).*2 in
  let* us := index_select us shuffle_mask in
  let* vs := index_select vs shuffle_mask in
  (* convert into node embeddings *)
  let* us := index_select embs us in
  let* vs := index_select embs vs in
  let* negative_us := index_select embs negative_us in
  let* negative_vs := index_select embs negative_vs in
  (* convert into edge embeddings *)
  let positive_edges := tensor_mul2 us vs in
  let negative_edges := tensor_mul2 negative_us negative_vs in
  let positive_values := torch_ones (length positive_edges) in
  let negative_values := torch_zeros (length negative_edges) in
  (* create shuffled edge and value list *)
  let edges := positive_edges ++ negative_edges in
  let values := positive_values ++ negative_values in
  let* shuffle_mask := random (torch_randperm (length edges)) in
  let* edges := index_select edges shuffle_mask in
  let* values := index_select values shuffle_mask in
  Py.ret (edges, values).

(** Lines 170-175 and 225-230: split, fit the linear classifier, score it
    on the validation part. *)
Definition classifier_score (edges : list (list scalar)) (values : list Z)
  : Py.M world Q :=
  let* '(train_edges, val_edges, train_classes, val_classes) :=
    random (train_test_split edges values) in
  let* classifier := random (SGDClassifier_fit 1000 train_edges train_classes) in
  let* _ := emit (ev_fit 1000 train_edges train_classes) in
  let score := SGDClassifier_score classifier val_edges val_classes in
  let* _ := emit (ev_score val_edges val_classes) in
  Py.ret score.

Definition _do_run (GRAPHS : graphs) (model graph_type src target : string)
  : Py.M world unit :=
  let* by_clustering := Py.getitem GRAPHS graph_type in
  let* by_role := Py.getitem by_clustering src in
  let* src_g := Py.getitem by_role "src" in
  let* by_clustering := Py.getitem GRAPHS graph_type in
  let* by_role := Py.getitem by_clustering src in
  let* target_g := Py.getitem by_role "target" in
  let args := EncoderArgs K LR HIDDEN_LAYERS model "pretrain.pt" PATIENCE MIN_DELTA EPOCHS in
  let* encoder := random (train_egi_encoder src_g args) in
  let* _ := emit (ev_train src_g args) in
  let features := degree_bucketing src_g HIDDEN_LAYERS in
  let embs := encoder_forward encoder src_g features in
  let* _ := emit (ev_encode src_g) in
  let* '(edges, values) := edge_dataset src_g embs in
  let* score := classifier_score edges values in
  let* _ := summary_set "source-accuracy" score in
  (* Direct transfer of embeddings *)
  let features := degree_bucketing target_g HIDDEN_LAYERS in
  let embs := encoder_forward encoder target_g features in
  let* _ := emit (ev_encode target_g) in
  let* '(edges, values) := edge_dataset target_g embs in
  let* score := classifier_score edges values in
  summary_set "target-accuracy" score.

(** [itertools.product(xs, ys)] and [itertools.permutations(xs, r=2)]. *)
Definition product {A B} (xs : list A) (ys : list B) : list (A * B) :=
  x ← xs; y ← ys; [(x, y)].

Fixpoint remove_nth {A} (i : nat) (xs : list A) : list A :=
  match xs, i with
  | [], _ => []
  | _ :: xs', O => xs'
  | x :: xs', S i' => x :: remove_nth i' xs'
  end.

Definition permutations2 {A} (xs : list A) : list (A * A) :=
  mjoin (imap (fun i x => (fun y => (x, y)) <$> remove_nth i xs) xs).

(** [random.shuffle]: some rearrangement of the list, chosen by the
    generator. *)
Variable shuffle : list (string * string) -> rng -> list (string * string) * rng.

Definition run_name (model graph_type src target : string) (i : Z) : string :=
  model +:+ "-" +:+ graph_type +:+ "-" +:+ src +:+ "-" +:+ target +:+ "-" +:+ pretty i.

(** [current_date_time] is the clock reading formatted by [strftime]. *)
Definition main (current_date_time : string) (GRAPHS : graphs) : Py.M world unit :=
  (* sweep model, graph type *)
  let trials := product MODELS GRAPH_TYPES in
  let* trials := random (shuffle trials) in
  Py.for_each trials (fun '(model, graph_type) =>
    Py.for_each (permutations2 ["clustered"; "unclustered"]) (fun '(src, target) =>
      Py.for_each (Py.range N_RUNS) (fun i =>
        let* _ := emit (wandb_init "Clustered Transfer"
                          (run_name model graph_type src target i)
                          "sta-graph-transfer-learning"
                          ("Run " +:+ current_date_time)
                          [("model", model); ("graph_type", graph_type);
                           ("src", src); ("target", target)]) in
        let* _ := _do_run GRAPHS model graph_type src target in
        emit wandb_finish))).

(** [_get_edge_embedding(emb, a, b)]: [emb[a]] is row [a] of the matrix,
    counted from the end when [a] is negative. *)
Definition getitem_int {A} (t : list A) (i : Z) : Py.res A :=
  let n := Z.of_nat (length t) in
  let j := if (i <? 0)%Z then (i + n)%Z else i in
  if (j <? 0)%Z then Py.Raise Py.IndexError
  else match t !! Z.to_nat j with
       | Some x => Py.Ok x
       | None => Py.Raise Py.IndexError
       end.

Definition np_multiply (x y : list scalar) : list scalar := zip_with tensor_mul x y.

Definition _get_edge_embedding (emb : list (list scalar)) (a b : Z)
  : Py.res (list scalar) :=
  match getitem_int emb a with
  | Py.Raise e => Py.Raise e
  | Py.Ok ea =>
      match getitem_int emb b with
      | Py.Raise e => Py.Raise e
      | Py.Ok eb => Py.Ok (np_multiply ea eb)
      end
  end.


End Script.
End clustered_experiment.

(** ** Python values of the sweep configurations, [argparse], [wandb] *)
Module pyobj.

(** Values found in the sweep dictionaries; a dict keeps its items in
    insertion order. *)
Inductive pyval : Type :=
| PNone
| PStr (s : string)
| PInt (z : Z)
| PFloat (q : Q)
| PList (items : list pyval)
| PDict (items : list (string * pyval)).

Abbreviation dict := (list (string * pyval)).

Fixpoint dict_get (d : dict) (key : string) : option pyval :=
  match d with
  | [] => None
  | (k', v) :: d' => if String.eqb k' key then Some v else dict_get d' key
  end.

(** [d[key] = v] (also what [d.update({key: v})] does): the value is
    replaced in place, or the item is added at the end. *)
Fixpoint dict_set (d : dict) (key : string) (v : pyval) : dict :=
  match d with
  | [] => [(key, v)]
  | (k', v') :: d' =>
      if String.eqb k' key then (k', v) :: d' else (k', v') :: dict_set d' key v
  end.

Definition of_option (o : option string) : pyval :=
  match o with Some s => PStr s | None => PNone end.

(** [f"{o}"] *)
Definition format (o : option string) : string :=
  match o with Some s => s | None => "None" end.

End pyobj.

Module argparse.

(** [parser.add_argument(name, choices=..., default=...)]; an argument is
    positional when its name has no leading dash, and [dest] is the
    attribute argparse stores it under. *)
Record argument : Type := Argument {
  name : string;
  dest : string;
  positional : bool;
  choices : option (list string);
  default : option string
}.

Abbreviation namespace := (gmap string (option string)).

(** The value stored for one argument, given the strings the command line
    supplied per [dest]: a supplied value must be one of the choices, a
    missing positional is an error, a missing option takes its default.
    [parser.error] exits with status 2. *)
Definition get_value (raw : gmap string string) (a : argument) : Py.res (option string) :=
  match raw !! dest a with
  | Some v =>
      match choices a with
      | Some cs => if bool_decide (v ∈ cs) then Py.Ok (Some v)
                   else Py.Raise (Py.SystemExit 2)
      | None => Py.Ok (Some v)
      end
  | None => if positional a then Py.Raise (Py.SystemExit 2) else Py.Ok (default a)
  end.

Fixpoint get_values (raw : gmap string string) (args : list argument)
  : Py.res namespace :=
  match args with
  | [] => Py.Ok ∅
  | a :: args' =>
      match get_value raw a with
      | Py.Raise e => Py.Raise e
      | Py.Ok v =>
          match get_values raw args' with
          | Py.Raise e => Py.Raise e
          | Py.Ok ns => Py.Ok (<[dest a := v]> ns)
          end
      end
  end.

Section Parser.
(** How argparse splits the command line among the declared arguments
    (the strings per [dest]), or leaves through [SystemExit]: status 0
    after [-h], status 2 for a malformed command line. *)
Variable match_args : list argument -> list string -> Py.res (gmap string string).

Definition parse_args {S} (parser : list argument) (argv : list string)
  : Py.M S namespace :=
  match match_args parser argv with
  | Py.Raise e => Py.raise e
  | Py.Ok raw => Py.lift (get_values raw parser)
  end.

(** [args.attr] *)
Definition getattr {S} (ns : namespace) (attr : string) : Py.M S (option string) :=
  match ns !! attr with
  | Some v => Py.ret v
  | None => Py.raise (Py.AttributeError attr)
  end.

End Parser.
End argparse.

Module wandb.
Import pyobj.

(** Calls to the tracking service made by the sweep scripts. *)
Inductive event : Type :=
| sweep (sweep_config : dict) (project entity : option string)
| agent (sweep_id : string) (function : string)
| init
| log (key : string) (v : Q)
| finish.

(** The state a sweep script runs in: its module-level [sweep_config],
    the parameters the sweep controller chose for the current run, and
    the tracker's [wandb.config] and [wandb.summary]. *)
Record world : Type := World {
  sweep_config : dict;
  controller : gmap string pyval;
  config : gmap string pyval;
  summary : gmap string Q;
  trace : list event
}.

Definition emit (e : event) : Py.M world unit :=
  Py.modify (fun w =>
    World (sweep_config w) (controller w) (config w) (summary w) (trace w ++ [e])).

Definition set_sweep_config (d : dict) : Py.M world unit :=
  Py.modify (fun w => World d (controller w) (config w) (summary w) (trace w)).

(** [wandb.init(config=defaults)]: [wandb.config] holds the controller's
    parameters, over the defaults. *)
Definition wandb_init (defaults : gmap string pyval) : Py.M world unit :=
  let* _ := Py.modify (fun w =>
    World (sweep_config w) (controller w) (controller w ∪ defaults) (summary w) (trace w)) in
  emit init.

(** [wandb.config[key]] or [wandb.config.key], used as an integer;
    [missing] is what the access raises when the key is absent. *)
Definition config_int (key : string) (missing : Py.exn) : Py.M world Z :=
  let* w := Py.get in
  match config w !! key with
  | Some (PInt n) => Py.ret n
  | Some _ => Py.raise Py.TypeError
  | None => Py.raise missing
  end.

(** [wandb.summary[key]] *)
Definition summary_get (key : string) : Py.M world Q :=
  let* w := Py.get in
  Py.getitem (summary w) key.

(** [x / n] with an integer divisor. *)
Definition truediv {S} (x : Q) (n : Z) : Py.M S Q :=
  if (n =? 0)%Z then Py.raise Py.ZeroDivisionError else Py.ret (x / inject_Z n)%Q.

End wandb.

(** ** [scripts/experiments/sweep_airport.py] *)
Module sweep_airport.
Import pyobj.

Definition sweep_config : dict :=
  [ ("project", PStr "Airport hyperparams sweep");
    ("entity", PStr "sta-graph-transfer-learning");
    ("metric", PDict [("goal", PStr "maximize"); ("name", PStr "avg_classification_accuracy")]);
    ("method", PStr "bayes");
    ("parameters", PDict
       [ ("n_runs", PDict [("value", PInt 5)]);
         ("batch_size", PDict [("values", PList [PInt 16; PInt 32; PInt 64])]);
         ("hidden_layers", PDict [("min", PInt 16); ("max", PInt 128)]);
         ("lr", PDict [("min", PFloat (1 # 10000)); ("max", PFloat (1 # 10))]);
         ("k", PDict [("min", PInt 1); ("max", PInt 5)]);
         ("patience", PDict [("value", PInt 20)]);
         ("min_delta", PDict [("value", PFloat (1 # 100))]);
         ("epochs", PDict [("value", PInt 200)]) ]) ].

Definition parser : list argparse.argument :=
  [ argparse.Argument "model" "model" true (Some ["egi"; "triangle"; "graphsage"]) None ].

Section Script.
Variable match_args :
  list argparse.argument -> list string -> Py.res (gmap string string).
(** The id the service gives a newly registered sweep. *)
Variable new_sweep_id : dict -> string.
Variable current_date_time : string.
(** [airport_direct_transfer.do_run], which leaves its result in
    [wandb.summary["target-classifier-accuracy"]]. *)
Variable do_run : Py.M wandb.world unit.

(** [sweep_config["parameters"].update({"model": {"value": model}})] *)
Definition add_model_parameter (model : option string) : Py.M wandb.world unit :=
  let* w := Py.get in
  match dict_get (wandb.sweep_config w) "parameters" with
  | Some (PDict parameters) =>
      wandb.set_sweep_config
        (dict_set (wandb.sweep_config w) "parameters"
           (PDict (dict_set parameters "model" (PDict [("value", of_option model)]))))
  | Some _ => Py.raise (Py.AttributeError "update")
  | None => Py.raise (Py.KeyError "parameters")
  end.

(** [sweep_config.update({"name": f"{model} ({current_date_time})"})] *)
Definition add_name (model : option string) : Py.M wandb.world unit :=
  let* w := Py.get in
  wandb.set_sweep_config
    (dict_set (wandb.sweep_config w) "name"
       (PStr (format model +:+ " (" +:+ current_date_time +:+ ")"))).

Definition main (argv : list string) : Py.M wandb.world unit :=
  (* read model type from arguments *)
  let* args := argparse.parse_args match_args parser argv in
  let* model := argparse.getattr args "model" in
  (* add model and name to sweep *)
  let* _ := add_name model in
  let* _ := add_model_parameter model in
  let* w := Py.get in
  let* _ := wandb.emit (wandb.sweep (wandb.sweep_config w) None None) in
  let sweep_id := new_sweep_id (wandb.sweep_config w) in
  wandb.emit (wandb.agent sweep_id "train").

(** [sum(results)]: from 0, left to right. *)
Definition sum (results : list Q) : Q := fold_left Qplus results 0%Q.

(** The [for] loop of [train], with the list it appends to. *)
Fixpoint train_loop (range_ : list Z) (results : list Q) : Py.M wandb.world (list Q) :=
  match range_ with
  | [] => Py.ret results
  | _ :: range' =>
      let* _ := do_run in
      let* r := wandb.summary_get "target-classifier-accuracy" in
      train_loop range' (results ++ [r])
  end.

Definition train : Py.M wandb.world unit :=
  let* _ := wandb.wandb_init ∅ in
  (* to reduce variance, do many runs, and optimise on the average *)
  let* n_runs := wandb.config_int "n_runs" (Py.KeyError "n_runs") in
  let* results := train_loop (Py.range n_runs) [] in
  let* avg := wandb.truediv (sum results) (Z.of_nat (length results)) in
  let* _ := wandb.emit (wandb.log "avg_classification_accuracy" avg) in
  wandb.emit wandb.finish.

End Script.
End sweep_airport.

(** ** [scripts/experiments/to-port/sweep_triangle_detection.py] *)
Module sweep_triangle_detection.
Import pyobj.

Definition entity : string := "sta-graph-transfer-learning".
Definition project : string := "Triangle Detection".

Definition sweep_config : dict :=
  [ ("metric", PDict [("goal", PStr "maximize"); ("name", PStr "avg_target_accuracy")]);
    ("method", PStr "bayes");
    ("parameters", PDict
       [ ("batch_size", PDict [("values", PList [PInt 16; PInt 32; PInt 64])]);
         ("hidden_layers", PDict [("min", PInt 16); ("max", PInt 128)]);
         ("lr", PDict [("min", PFloat (1 # 10000)); ("max", PFloat (1 # 10))]);
         ("k", PDict [("min", PInt 1); ("max", PInt 5)]);
         ("sweep_n_runs", PDict [("value", PInt 4)]);
         ("source_core_size", PDict [("value", PInt 75)]);
         ("target_core_size", PDict [("value", PInt 75)]);
         ("source_periphery_size", PDict [("value", PInt 500)]);
         ("target_periphery_size", PDict [("value", PInt 500)]);
         ("patience", PDict [("value", PInt 10)]);
         ("min_delta", PDict [("value", PFloat (1 # 100))]);
         ("epochs", PDict [("value", PInt 100)]) ]) ].

Definition parser : list argparse.argument :=
  [ argparse.Argument "model" "model" true (Some ["egi"; "triangle"; "graphsage"]) None;
    argparse.Argument "--sweep-id" "sweep_id" false None None ].

Section Script.
Variable match_args :
  list argparse.argument -> list string -> Py.res (gmap string string).
Variable new_sweep_id : dict -> string.
Variable current_date_time : string.
(** [triangle_detection_task.do_run] and [default_config]. *)
Variable do_run : Py.M wandb.world unit.
Variable default_config : gmap string pyval.

Definition add_model_parameter (model : option string) : Py.M wandb.world unit :=
  let* w := Py.get in
  match dict_get (wandb.sweep_config w) "parameters" with
  | Some (PDict parameters) =>
      wandb.set_sweep_config
        (dict_set (wandb.sweep_config w) "parameters"
           (PDict (dict_set parameters "model" (PDict [("value", of_option model)]))))
  | Some _ => Py.raise (Py.AttributeError "update")
  | None => Py.raise (Py.KeyError "parameters")
  end.

Definition add_name (model : option string) : Py.M wandb.world unit :=
  let* w := Py.get in
  wandb.set_sweep_config
    (dict_set (wandb.sweep_config w) "name"
       (PStr (format model +:+ " (" +:+ current_date_time +:+ ")"))).

Definition main (argv : list string) : Py.M wandb.world unit :=
  (* read model type from arguments *)
  let* args := argparse.parse_args match_args parser argv in
  let* model := argparse.getattr args "model" in
  let* sweep_id := argparse.getattr args "sweep_id" in
  (* create new sweep if sweep id is not given *)
  let* sweep_id :=
    match sweep_id with
    | None =>
        (* add model and name to sweep *)
        let* _ := add_name model in
        let* _ := add_model_parameter model in
        let* w := Py.get in
        let* _ := wandb.emit
                    (wandb.sweep (wandb.sweep_config w) (Some project) (Some entity)) in
        Py.ret (new_sweep_id (wandb.sweep_config w))
    | Some id => Py.ret id
    end in
  wandb.emit (wandb.agent sweep_id "sweep_runner").

(** The [for] loop of [sweep_runner], with its accumulator. *)
Fixpoint runner_loop (range_ : list Z) (acc : Q) : Py.M wandb.world Q :=
  match range_ with
  | [] => Py.ret acc
  | _ :: range' =>
      let* _ := do_run in
      let* r := wandb.summary_get "target-accuracy" in
      runner_loop range' (acc + r)%Q
  end.

Definition sweep_runner : Py.M wandb.world unit :=
  let* _ := wandb.wandb_init default_config in
  let acc := 0%Q in
  let* sweep_n_runs := wandb.config_int "sweep_n_runs" (Py.AttributeError "sweep_n_runs") in
  let* acc := runner_loop (Py.range sweep_n_runs) acc in
  let* sweep_n_runs := wandb.config_int "sweep_n_runs" (Py.AttributeError "sweep_n_runs") in
  let* avg := wandb.truediv acc sweep_n_runs in
  let* _ := wandb.emit (wandb.log "avg_target_accuracy" avg) in
  wandb.emit wandb.finish.

End Script.
End sweep_triangle_detection.

(** ** A small concrete environment

    Concrete libraries on which the models above can be run: every graph is
    the path 0 - 1 - 2 with both directions of each edge, named by the
    content of the file it was read from; the generator state is a counter;
    [randperm] reverses; the split keeps three quarters for training. *)
Module toy.
Import clustered_experiment pyobj.

Definition libs : Libraries := {|
  scalar := Z;
  tensor_mul := Z.mul;
  DGLGraph := string;
  NxGraph := string;
  Encoder := unit;
  Features := unit;
  Classifier := unit;
  rng := nat;
  nx_read_edgelist := fun content => Py.Ok content;
  dgl_from_networkx := fun g => g;
  dgl_edges := fun _ => [(0, 1); (1, 0); (1, 2); (2, 1)];
  global_uniform_negative_sampling := fun _ n s => (replicate n (0, 2), S s);
  train_egi_encoder := fun _ _ s => (tt, S s);
  degree_bucketing := fun _ _ => tt;
  encoder_forward := fun _ _ _ => [[1; 2]; [3; 4]; [5; 6]]%Z;
  torch_randperm := fun n s => (reverse (seq 0 n), S s);
  train_test_split := fun edges values s =>
    let n := length edges * 3 / 4 in
    ((take n edges, drop n edges, take n values, drop n values), S s);
  SGDClassifier_fit := fun _ _ _ s => (tt, S s);
  SGDClassifier_score := fun _ _ _ => (1 # 2)%Q
|}.

Definition shuffle (trials : list (string * string)) (s : nat)
  : list (string * string) * nat := (reverse trials, S s).

Definition DATA_DIR : string := "data/generated/clustered".

Definition file_names : list string :=
  [ "powerlaw-clustered-100-0.edgelist"; "powerlaw-clustered-100-1.edgelist";
    "powerlaw-unclustered-100-0.edgelist"; "powerlaw-unclustered-100-1.edgelist";
    "poisson-clustered-100-0.edgelist"; "poisson-clustered-100-1.edgelist";
    "poisson-unclustered-100-0.edgelist"; "poisson-unclustered-100-1.edgelist" ].

(** A data directory holding the eight generated files; the content of a
    file is, here, its own name. *)
Definition files : gmap string fs_entry :=
  list_to_map ((fun n => (joinpath DATA_DIR n, RegularFile n)) <$> file_names).

Definition world0 : @world libs := @World libs files [] 0 ∅ [].

(** The [GRAPHS] table of that directory. *)
Definition graphs : gmap string (gmap string (gmap string string)) :=
  {[ "scalefree" :=
       {[ "clustered" := {[ "src" := "powerlaw-clustered-100-0.edgelist";
                            "target" := "powerlaw-clustered-100-1.edgelist" ]};
          "unclustered" := {[ "src" := "powerlaw-unclustered-100-0.edgelist";
                              "target" := "powerlaw-unclustered-100-1.edgelist" ]} ]};
     "poisson" :=
       {[ "clustered" := {[ "src" := "poisson-clustered-100-0.edgelist";
                            "target" := "poisson-clustered-100-1.edgelist" ]};
          "unclustered" := {[ "src" := "poisson-unclustered-100-0.edgelist";
                              "target" := "poisson-unclustered-100-1.edgelist" ]} ]} ]}.

(** A command-line matcher for the two sweep parsers: one positional, and
    [--sweep-id ID] where the parser declares it. *)
Definition match_args (parser : list argparse.argument) (argv : list string)
  : Py.res (gmap string string) :=
  let has_sweep_id :=
    existsb (fun a => String.eqb (argparse.name a) "--sweep-id") parser in
  match argv with
  | [m] => Py.Ok {[ "model" := m ]}
  | [m; flag; id] =>
      if has_sweep_id && String.eqb flag "--sweep-id"
      then Py.Ok {[ "model" := m; "sweep_id" := id ]}
      else Py.Raise (Py.SystemExit 2)
  | _ => Py.Raise (Py.SystemExit 2)
  end.

Definition new_sweep_id (_ : dict) : string := "sweep0".

(** A run whose accuracy is a quarter better than the last one's. *)
Definition do_run (key : string) : Py.M wandb.world unit :=
  Py.modify (fun w =>
    wandb.World (wandb.sweep_config w) (wandb.controller w) (wandb.config w)
      (<[key := (default 0 (wandb.summary w !! key) + (1 # 4))%Q]> (wandb.summary w))
      (wandb.trace w)).

(** The data directory with the third file of the table not generated. *)
Definition files_missing : gmap string fs_entry :=
  delete (joinpath DATA_DIR "powerlaw-unclustered-100-0.edgelist") files.

Definition world_missing : @world libs := @World libs files_missing [] 0 ∅ [].

(** The hyperparameters of the airport sweep. *)
Definition airport_parameters : dict :=
  match dict_get sweep_airport.sweep_config "parameters" with
  | Some (PDict parameters) => parameters
  | _ => []
  end.

(** A run that breaks down. *)
Definition broken_run : Py.M wandb.world unit := Py.raise (Py.ValueError "out of memory").

(** Sweep runs configured for two repetitions. *)
Definition airport_world : wandb.world :=
  wandb.World sweep_airport.sweep_config {[ "n_runs" := PInt 2 ]} ∅ ∅ [].

Definition triangle_world : wandb.world :=
  wandb.World sweep_triangle_detection.sweep_config {[ "sweep_n_runs" := PInt 2 ]} ∅ ∅ [].

End toy.

(** ** Vocabulary for the properties of [clustered_experiment] *)
Module clustered_experiment_spec.
Import clustered_experiment.

Section Spec.
Context `{L : Libraries}.

(** The world after a random library call. *)
Definition reseed (w : world) (r : rng) : world :=
  World (fs w) (stdout w) r (summary w) (trace w).

(** Every endpoint of the pairs has a row in the embedding matrix. *)
Definition embedded (embs : list (list scalar)) (pairs : list (nat * nat)) : Prop :=
  Forall (fun i => i < length embs) pairs.*1 /\
  Forall (fun i => i < length embs) pairs.*2.

(** What [torch.randperm(n)] promises. *)
Definition randperm_law : Prop :=
  forall (n : nat) (s : rng), (torch_randperm n s).1 ≡ₚ seq 0 n.

(** The negative pairs the sampler returns for [g]. *)
Definition negatives (g : DGLGraph) (s : rng) : list (nat * nat) :=
  (global_uniform_negative_sampling g (num_edges g) s).1.

(** The world after library calls that advanced the generator to [r] and
    left the events [evs]. *)
Definition advance (w : world) (r : rng) (evs : list event) : world :=
  World (fs w) (stdout w) r (summary w) (trace w ++ evs).

(** [s] is the validation score of a classifier fitted on the training
    part of a split of [g]'s edge dataset, under encoder [enc]. *)
Definition evaluated_on (g : DGLGraph) (enc : Encoder)
    (tr : list (list scalar)) (tc : list Z) (ve : list (list scalar)) (vc : list Z)
    (s : Q) : Prop :=
  exists (wa wb : world) edges values rs,
    edge_dataset g (encoder_forward enc g (degree_bucketing g HIDDEN_LAYERS)) wa
      = (Py.Ok (edges, values), wb) /\
    train_test_split edges values (rng_state wb) = ((tr, ve, tc, vc), rs) /\
    s = SGDClassifier_score (SGDClassifier_fit 1000 tr tc rs).1 ve vc.

(** The library contracts under which [_do_run] meets no exception: the
    encoder returns a row for every node that occurs in an edge or in a
    negative pair, and [randperm] returns permutations. *)
Record lawful : Prop := Lawful {
  law_randperm : randperm_law;
  law_edges : forall enc g,
    embedded (encoder_forward enc g (degree_bucketing g HIDDEN_LAYERS)) (dgl_edges g);
  law_negatives : forall enc g s,
    embedded (encoder_forward enc g (degree_bucketing g HIDDEN_LAYERS)) (negatives g s)
}.

Definition encoder_args_of (model : string) : encoder_args :=
  EncoderArgs K LR HIDDEN_LAYERS model "pretrain.pt" PATIENCE MIN_DELTA EPOCHS.



(** The graphs the encoder was trained on, and applied to. *)
Definition trained_on (evs : list event) : list DGLGraph :=
  omap (fun e => match e with ev_train g _ => Some g | _ => None end) evs.

Definition encoded (evs : list event) : list DGLGraph :=
  omap (fun e => match e with ev_encode g => Some g | _ => None end) evs.

(** [G[graph_type][clustering][role]], when the keys are there. *)
Definition graph_at (G : gmap string (gmap string (gmap string DGLGraph)))
    (graph_type clustering role : string) : option DGLGraph :=
  match G !! graph_type with
  | Some by_clustering =>
      match by_clustering !! clustering with
      | Some by_role => by_role !! role
      | None => None
      end
  | None => None
  end.

(** *** The runs of [main] *)

Record run : Type := Run {
  run_model : string; run_graph_type : string;
  run_src : string; run_target : string; run_index : Z }.



Definition init_event (now : string) (r : run) : event :=
  wandb_init "Clustered Transfer"
    (run_name (run_model r) (run_graph_type r) (run_src r) (run_target r) (run_index r))
    "sta-graph-transfer-learning" ("Run " +:+ now)
    [("model", run_model r); ("graph_type", run_graph_type r);
     ("src", run_src r); ("target", run_target r)].

Definition inside_run (e : event) : Prop :=
  match e with
  | wandb_init _ _ _ _ _ | wandb_finish => False
  | _ => True
  end.





End Spec.
End clustered_experiment_spec.

(** ** Vocabulary for the properties of the sweep scripts *)
Module sweep_spec.
Import pyobj wandb.

Definition model_choices : list string := ["egi"; "triangle"; "graphsage"].

(** The configuration a new sweep is registered with. *)
Definition named_config (current_date_time : string)
    (sweep_config parameters : dict) (m : string) : dict :=
  dict_set
    (dict_set sweep_config "name" (PStr (m +:+ " (" +:+ current_date_time +:+ ")")))
    "parameters" (PDict (dict_set parameters "model" (PDict [("value", PStr m)]))).


(** From world [w], successive calls of [do_run] leave the accuracies [vs]
    under [key] of [wandb.summary], one per call, and end in world [w']. *)
Inductive runs_yield (do_run : Py.M world unit) (key : string)
  : world -> list Q -> world -> Prop :=
| yield_nil (w : world) : runs_yield do_run key w [] w
| yield_cons (w w1 w' : world) (v : Q) (vs : list Q) :
    do_run w = (Py.Ok tt, w1) ->
    summary w1 !! key = Some v ->
    runs_yield do_run key w1 vs w' ->
    runs_yield do_run key w (v :: vs) w'.

(** The world right after [wandb.init(config=defaults)]. *)
Definition initialised (w : world) (defaults : gmap string pyobj.pyval) : world :=
  World (sweep_config w) (controller w) (controller w ∪ defaults) (summary w)
    (trace w ++ [init]).

(** The world after the metric was logged and the run finished. *)
Definition logged (w : world) (key : string) (avg : Q) : world :=
  World (sweep_config w) (controller w) (config w) (summary w)
    (trace w ++ [log key avg; finish]).

End sweep_spec.

(** ** Vocabulary for loading the graphs and for what a run leaves alone *)
Module clustered_experiment_io.
Import clustered_experiment clustered_experiment_spec.

Section Spec.
Context `{L : Libraries}.

(** The edge-list files, in the order the [GRAPHS] display loads them. *)
Definition GRAPH_FILES : list string :=
  [ "powerlaw-clustered-100-0.edgelist"; "powerlaw-clustered-100-1.edgelist";
    "powerlaw-unclustered-100-0.edgelist"; "powerlaw-unclustered-100-1.edgelist";
    "poisson-clustered-100-0.edgelist"; "poisson-clustered-100-1.edgelist";
    "poisson-unclustered-100-0.edgelist"; "poisson-unclustered-100-1.edgelist" ].

(** Which file each entry of the table is read from. *)
Definition GRAPH_KEYS : list (string * string * string * string) :=
  [ ("scalefree", "clustered", "src", "powerlaw-clustered-100-0.edgelist");
    ("scalefree", "clustered", "target", "powerlaw-clustered-100-1.edgelist");
    ("scalefree", "unclustered", "src", "powerlaw-unclustered-100-0.edgelist");
    ("scalefree", "unclustered", "target", "powerlaw-unclustered-100-1.edgelist");
    ("poisson", "clustered", "src", "poisson-clustered-100-0.edgelist");
    ("poisson", "clustered", "target", "poisson-clustered-100-1.edgelist");
    ("poisson", "unclustered", "src", "poisson-unclustered-100-0.edgelist");
    ("poisson", "unclustered", "target", "poisson-unclustered-100-1.edgelist") ].

(** The graph a path holds: the path is a regular file and networkx reads
    its content. *)
Definition loaded_graph (w : world) (path : string) : option DGLGraph :=
  match fs w !! path with
  | Some (RegularFile content) =>
      match nx_read_edgelist content with
      | Py.Ok g => Some (dgl_from_networkx g)
      | Py.Raise _ => None
      end
  | _ => None
  end.

(** The line [_load_edgelist] prints for a path that is no file. *)
Definition missing_message (path : string) : string :=
  "File " +:+ path +:+ " does not exist - generate the dataset before running this script!".

(** The world after one more printed line. *)
Definition printed (w : world) (line : string) : world :=
  World (fs w) (stdout w ++ [line]) (rng_state w) (summary w) (trace w).

(** Whatever its outcome, [c] leaves the files and the output alone, only
    adds events allowed by [allowed] to the trace, and changes
    [wandb.summary] at most under [keys]. *)
Definition frame {A} (allowed : event -> Prop) (keys : list string)
    (c : Py.M world A) : Prop :=
  forall w r w', c w = (r, w') ->
    fs w' = fs w /\ stdout w' = stdout w /\
    (exists evs, trace w' = trace w ++ evs /\ Forall allowed evs) /\
    (forall key, key ∉ keys -> summary w' !! key = summary w !! key).

Definition score_keys : list string := ["source-accuracy"; "target-accuracy"].

End Spec.
End clustered_experiment_io.

(** * Properties *)

(** ** Steps of the monad *)
Module Py_facts.

Lemma bind_ret {S A B} (a : A) (k : A -> Py.M S B) (s : S) :
  Py.bind (Py.ret a) k s = k a s.
Proof. done. Qed.

Lemma bind_ok {S A B} (c : Py.M S A) (k : A -> Py.M S B) (s s' : S) (a : A) :
  c s = (Py.Ok a, s') -> Py.bind c k s = k a s'.
Proof. intros Hc. unfold Py.bind. by rewrite Hc. Qed.

Lemma bind_getitem {S V B} (d : gmap string V) (key : string) (v : V)
    (k : V -> Py.M S B) (s : S) :
  d !! key = Some v -> Py.bind (Py.getitem d key) k s = k v s.
Proof. intros Hd. unfold Py.bind, Py.getitem. by rewrite Hd. Qed.

End Py_facts.

(** ** Index tensors, permutations and counting *)
Module tensor_facts.

Lemma mapM_Permutation {A B} (f : A -> option B) (idx idx' : list A) (r : list B) :
  idx ≡ₚ idx' -> mapM f idx = Some r ->
  exists r', mapM f idx' = Some r' /\ r ≡ₚ r'.
Proof.
  intros Hp. revert r.
  induction Hp as [|x l l' Hp IH|x y l|l l' l'' Hp1 IH1 Hp2 IH2]; intros r Hr.
  - exists r. split; [done|done].
  - simpl in Hr. destruct (f x) as [b|] eqn:Hx; [|done].
    destruct (mapM f l) as [bs|] eqn:Hl; [|done].
    simpl in Hr. injection Hr as <-.
    destruct (IH bs eq_refl) as (bs' & Hbs' & Hperm).
    exists (b :: bs'). simpl. rewrite Hx, Hbs'. split; [done|by constructor].
  - simpl in Hr. destruct (f y) as [b|] eqn:Hy; [|done].
    destruct (f x) as [c|] eqn:Hx; [|done].
    destruct (mapM f l) as [bs|] eqn:Hl; [|done].
    simpl in Hr. injection Hr as <-.
    exists (c :: b :: bs). simpl. rewrite Hx, Hy, Hl. split; [done|by constructor].
  - destruct (IH1 r Hr) as (r1 & Hr1 & Hp1').
    destruct (IH2 r1 Hr1) as (r2 & Hr2 & Hp2').
    exists r2. split; [done|by etrans].
Qed.

Lemma mapM_lookup_seq {A} (t : list A) :
  mapM (fun i => t !! i) (seq 0 (length t)) = Some t.
Proof.
  apply mapM_Some_2, Forall2_same_length_lookup. split.
  - by rewrite length_seq.
  - intros i x y Hx Hy. apply lookup_seq in Hx as [-> _]. done.
Qed.

(** Indexing by a permutation of the positions permutes the tensor. *)
Lemma mapM_lookup_perm {A} (t : list A) (mask : list nat) :
  mask ≡ₚ seq 0 (length t) ->
  exists r, mapM (fun i => t !! i) mask = Some r /\ r ≡ₚ t.
Proof.
  intros Hp. symmetry in Hp.
  destruct (mapM_Permutation _ _ _ _ Hp (mapM_lookup_seq t)) as (r & Hr & Hperm).
  exists r. split; [done|by symmetry].
Qed.

(** Indexing by in-range ids succeeds. *)
Lemma mapM_lookup_in_range {A} (t : list A) (idx : list nat) :
  Forall (fun i => i < length t) idx ->
  exists r, mapM (fun i => t !! i) idx = Some r.
Proof.
  induction 1 as [|i idx Hi _ [r Hr]]; [by exists []|].
  destruct (lookup_lt_is_Some_2 t i Hi) as [x Hx].
  exists (x :: r). simpl. by rewrite Hx, Hr.
Qed.

Lemma count_occ_replicate_eq (n : nat) (x : Z) :
  count_occ Z.eq_dec (replicate n x) x = n.
Proof. induction n as [|n IH]; simpl; [done|]. destruct (Z.eq_dec x x); [by rewrite IH|done]. Qed.

Lemma count_occ_replicate_ne (n : nat) (x y : Z) :
  x <> y -> count_occ Z.eq_dec (replicate n x) y = 0.
Proof. intros Hne. induction n as [|n IH]; simpl; [done|]. destruct (Z.eq_dec x y); done. Qed.

Lemma zip_with_comm {A B} (f : A -> A -> B) (x y : list A) :
  (forall a b, f a b = f b a) -> zip_with f x y = zip_with f y x.
Proof.
  intros Hf. revert y. induction x as [|a x IH]; intros [|b y]; simpl; [done..|].
  by rewrite Hf, IH.
Qed.

End tensor_facts.

(** ** [gtl.training.train] *)
Module training_facts.
Import training.

Section Dispatch.
Context {Graph value Model : Type}.
Variable run_trainer : trainer -> Graph -> gmap string value -> Py.res Model.
Variable str : string -> value.

Lemma lookup_unknown_model (model : string) :
  model ∉ model_names -> _model_functions str !! model = None.
Proof.
  intros Hnot. unfold model_names in Hnot.
  rewrite !not_elem_of_cons in Hnot. destruct Hnot as (H1 & H2 & H3 & _).
  unfold _model_functions.
  rewrite !lookup_insert_ne by congruence. apply lookup_singleton_ne. congruence.
Qed.

(** C2: [train] calls the GraphSAGE trainer for "graphsage", the EGI
    trainer with the matching sampler type for "egi" and "triangle" (one
    call each, with the caller's keywords over the frozen ones), and for
    any other model name raises [ValueError] with no trainer called. *)
Theorem train_dispatch (graph : Graph) (kwargs : gmap string value) (log : list call) :
  train run_trainer str "graphsage" graph kwargs log =
    (run_trainer train_graphsage_encoder graph (kwargs ∪ ∅),
     log ++ [Call train_graphsage_encoder graph (kwargs ∪ ∅)])
  /\ train run_trainer str "egi" graph kwargs log =
    (run_trainer train_egi_encoder graph (kwargs ∪ {[ "sampler_type" := str "egi" ]}),
     log ++ [Call train_egi_encoder graph (kwargs ∪ {[ "sampler_type" := str "egi" ]})])
  /\ train run_trainer str "triangle" graph kwargs log =
    (run_trainer train_egi_encoder graph (kwargs ∪ {[ "sampler_type" := str "triangle" ]}),
     log ++ [Call train_egi_encoder graph (kwargs ∪ {[ "sampler_type" := str "triangle" ]})])
  /\ forall model : string,
      model ∉ model_names ->
      train run_trainer str model graph kwargs log =
        (Py.Raise (Py.ValueError ("No such model: " +:+ model)), log).
Proof.
  repeat split.
  - intros model Hnot. unfold train. now rewrite lookup_unknown_model.
Qed.

End Dispatch.

Lemma train_dispatch_witness :
  train (fun _ (g : nat) _ => Py.Ok g) (fun s => s) "airport" 7 ∅ [] =
    (Py.Raise (Py.ValueError "No such model: airport"), []).
Proof.
  apply (train_dispatch (fun _ (g : nat) _ => Py.Ok g) (fun s => s) 7 ∅ []).
  unfold model_names. rewrite !not_elem_of_cons. repeat split; try discriminate.
  apply not_elem_of_nil.
Defined.

End training_facts.

(** ** [clustered_experiment]: stepping through the script *)
Module clustered_experiment_facts.
Import clustered_experiment clustered_experiment_spec tensor_facts Py_facts.

Section Steps.
Context `{L : Libraries}.

Lemma bind_random {A B} (f : rng -> A * rng) (k : A -> Py.M world B) (w : world) :
  Py.bind (random f) k w = k (f (rng_state w)).1 (reseed w (f (rng_state w)).2).
Proof. unfold Py.bind, random, reseed. by destruct (f (rng_state w)). Qed.

Lemma bind_index_select {A B} (t : list A) (idx : list nat) (r : list A)
    (k : list A -> Py.M world B) (w : world) :
  mapM (fun i => t !! i) idx = Some r ->
  Py.bind (index_select t idx) k w = k r w.
Proof. intros Hr. unfold Py.bind, index_select. by rewrite Hr. Qed.

Lemma gather_rows (embs : list (list scalar)) (ids shuffled : list nat) :
  Forall (fun i => i < length embs) ids -> shuffled ≡ₚ ids ->
  exists rows, mapM (fun i => embs !! i) shuffled = Some rows /\
               length rows = length ids.
Proof.
  intros Hin Hp. rewrite <- Hp in Hin.
  destruct (mapM_lookup_in_range embs shuffled Hin) as [rows Hrows].
  exists rows. split; [done|].
  apply length_mapM in Hrows. rewrite <- Hrows. by rewrite Hp.
Qed.

Lemma edge_dataset_spec (g : DGLGraph) (embs : list (list scalar)) (w : world) :
  randperm_law -> embedded embs (dgl_edges g) ->
  (forall s, embedded embs (negatives g s)) ->
  exists edges values r,
    edge_dataset g embs w = (Py.Ok (edges, values), reseed w r) /\
    length edges = length values /\
    values ≡ₚ torch_ones (num_edges g) ++
              torch_zeros (length (negatives g (rng_state w))).
Proof.
  intros Hperm [Hus Hvs] Hneg. unfold edge_dataset.
  rewrite bind_random.
  destruct (Hneg (rng_state w)) as [Hnus Hnvs]. unfold negatives in *.
  set (negative := (global_uniform_negative_sampling g (num_edges g) (rng_state w)).1) in *.
  set (w1 := reseed w _).
  rewrite bind_random.
  pose proof (Hperm (num_edges g) (rng_state w1)) as Hmask.
  set (mask := (torch_randperm (num_edges g) (rng_state w1)).1) in *.
  set (w2 := reseed w1 _).
  destruct (mapM_lookup_perm (dgl_edges g).*1 mask) as (us & Hus' & Hpus).
  { by rewrite length_fmap. }
  destruct (mapM_lookup_perm (dgl_edges g).*2 mask) as (vs & Hvs' & Hpvs).
  { by rewrite length_fmap. }
  rewrite (bind_index_select _ _ _ _ _ Hus'), (bind_index_select _ _ _ _ _ Hvs').
  destruct (gather_rows embs _ us Hus Hpus) as (eus & Heus & Hleus).
  destruct (gather_rows embs _ vs Hvs Hpvs) as (evs & Hevs & Hlevs).
  destruct (gather_rows embs _ negative.*1 Hnus (reflexivity _)) as (enus & Henus & Hlenus).
  destruct (gather_rows embs _ negative.*2 Hnvs (reflexivity _)) as (envs & Henvs & Hlenvs).
  rewrite (bind_index_select _ _ _ _ _ Heus), (bind_index_select _ _ _ _ _ Hevs).
  rewrite (bind_index_select _ _ _ _ _ Henus), (bind_index_select _ _ _ _ _ Henvs).
  rewrite length_fmap in Hleus, Hlevs, Hlenus, Hlenvs.
  fold (num_edges g) in Hleus, Hlevs.
  assert (Hpos : length (tensor_mul2 eus evs) = num_edges g).
  { unfold tensor_mul2. rewrite length_zip_with. lia. }
  assert (Hnegl : length (tensor_mul2 enus envs) = length negative).
  { unfold tensor_mul2. rewrite length_zip_with. lia. }
  rewrite bind_random.
  set (edges := tensor_mul2 eus evs ++ tensor_mul2 enus envs).
  set (values := torch_ones _ ++ torch_zeros _).
  assert (Hvl : length values = length edges).
  { unfold values, torch_ones, torch_zeros.
    rewrite length_app, !length_replicate. unfold edges. by rewrite length_app. }
  pose proof (Hperm (length edges) (rng_state w2)) as Hmask2.
  set (mask2 := (torch_randperm (length edges) (rng_state w2)).1) in *.
  destruct (mapM_lookup_perm edges mask2 Hmask2) as (sedges & Hse & Hpse).
  destruct (mapM_lookup_perm values mask2) as (svalues & Hsv & Hpsv).
  { by rewrite Hvl. }
  rewrite (bind_index_select _ _ _ _ _ Hse), (bind_index_select _ _ _ _ _ Hsv).
  exists sedges, svalues, (torch_randperm (length edges) (rng_state w2)).2.
  split; [done|]. split.
  - by rewrite Hpse, Hpsv.
  - rewrite Hpsv. unfold values. by rewrite Hpos, Hnegl.
Qed.

(** C8: on a graph [g] with [E] edges whose nodes all have an embedding,
    when the sampler returns [E] negative pairs (and [randperm] returns
    permutations) the dataset is built without an exception; the label
    vector put together before the shuffle, [E] ones followed by [E]
    zeros, has length [2 * E] with [E] entries 1 and [E] entries 0, and
    the shuffled vector passed to the split is a permutation of it, with
    the same length and the same two counts. *)
Theorem edge_dataset_balanced (g : DGLGraph) (embs : list (list scalar)) (w : world) :
  randperm_law -> embedded embs (dgl_edges g) ->
  (forall s, embedded embs (negatives g s)) ->
  (forall s, length (negatives g s) = num_edges g) ->
  let unshuffled := torch_ones (num_edges g) ++ torch_zeros (num_edges g) in
  length unshuffled = 2 * num_edges g /\
  count_occ Z.eq_dec unshuffled 1%Z = num_edges g /\
  count_occ Z.eq_dec unshuffled 0%Z = num_edges g /\
  exists edges values w',
    edge_dataset g embs w = (Py.Ok (edges, values), w') /\
    values ≡ₚ unshuffled /\
    length values = 2 * num_edges g /\
    count_occ Z.eq_dec values 1%Z = num_edges g /\
    count_occ Z.eq_dec values 0%Z = num_edges g.
Proof.
  intros Hperm Hemb Hneg Hcount unshuffled.
  assert (Hlen : length unshuffled = 2 * num_edges g).
  { unfold unshuffled, torch_ones, torch_zeros.
    rewrite length_app, !length_replicate. lia. }
  assert (H1 : count_occ Z.eq_dec unshuffled 1%Z = num_edges g).
  { unfold unshuffled, torch_ones, torch_zeros.
    rewrite count_occ_app, count_occ_replicate_eq, count_occ_replicate_ne by done. lia. }
  assert (H0 : count_occ Z.eq_dec unshuffled 0%Z = num_edges g).
  { unfold unshuffled, torch_ones, torch_zeros.
    rewrite count_occ_app, count_occ_replicate_eq, count_occ_replicate_ne by done. lia. }
  repeat split; try done.
  destruct (edge_dataset_spec g embs w Hperm Hemb Hneg) as (edges & values & r & Hrun & _ & Hp).
  rewrite Hcount in Hp. fold unshuffled in Hp.
  exists edges, values, (reseed w r). split; [done|]. split; [done|].
  pose proof (proj1 (Permutation_count_occ Z.eq_dec _ _) Hp) as Hocc.
  rewrite !Hocc. split; [|done].
  by rewrite (Permutation_length Hp).
Qed.

Lemma classifier_score_spec (edges : list (list scalar)) (values : list Z) (w : world) :
  exists tr ve tc vc rs,
    train_test_split edges values (rng_state w) = ((tr, ve, tc, vc), rs) /\
    classifier_score edges values w =
      (Py.Ok (SGDClassifier_score (SGDClassifier_fit 1000 tr tc rs).1 ve vc),
       advance w (SGDClassifier_fit 1000 tr tc rs).2 [ev_fit 1000 tr tc; ev_score ve vc]).
Proof.
  unfold classifier_score. rewrite bind_random.
  destruct (train_test_split edges values (rng_state w)) as [[[[tr ve] tc] vc] rs] eqn:Hs.
  exists tr, ve, tc, vc, rs. split; [done|].
  cbn [fst snd]. rewrite bind_random. unfold advance, reseed. cbn.
  by rewrite <- app_assoc.
Qed.

(** One evaluation phase: encode, build the dataset, fit, score, record. *)
Lemma evaluation_phase (g : DGLGraph) (enc : Encoder) (key : string)
    (k : unit -> Py.M world unit) (w : world) :
  lawful ->
  exists tr tc ve vc s r,
    evaluated_on g enc tr tc ve vc s /\
    Py.bind (emit (ev_encode g)) (fun _ =>
      Py.bind (edge_dataset g (encoder_forward enc g (degree_bucketing g HIDDEN_LAYERS)))
        (fun x => let '(edges, values) := x in
           Py.bind (classifier_score edges values) (fun score =>
             Py.bind (summary_set key score) k))) w
    = k tt (World (fs w) (stdout w) r (<[key := s]> (summary w))
              (trace w ++ [ev_encode g; ev_fit 1000 tr tc; ev_score ve vc;
                           wandb_summary_set key s])).
Proof.
  intros [Hperm Hedges Hneg].
  set (w1 := advance w (rng_state w) [ev_encode g]).
  destruct (edge_dataset_spec g _ w1 Hperm (Hedges enc g) (Hneg enc g))
    as (edges & values & r & Hrun & _ & _).
  destruct (classifier_score_spec edges values (reseed w1 r))
    as (tr & ve & tc & vc & rs & Hsplit & Hscore).
  exists tr, tc, ve, vc, (SGDClassifier_score (SGDClassifier_fit 1000 tr tc rs).1 ve vc),
    (SGDClassifier_fit 1000 tr tc rs).2.
  split.
  - exists w1, (reseed w1 r), edges, values, rs. done.
  - unfold Py.bind at 1. cbn [emit Py.modify].
    change (World (fs w) (stdout w) (rng_state w) (summary w) (trace w ++ [ev_encode g]))
      with w1.
    rewrite (bind_ok _ _ _ _ _ Hrun). rewrite (bind_ok _ _ _ _ _ Hscore).
    unfold Py.bind, summary_set, emit, Py.modify, advance, reseed, w1. cbn.
    by rewrite <- !app_assoc.
Qed.

Lemma _do_run_spec (G : gmap string (gmap string (gmap string DGLGraph)))
    (model graph_type src target : string) (w : world)
    (by_clustering : gmap string (gmap string DGLGraph))
    (by_role : gmap string DGLGraph) (src_g target_g : DGLGraph) :
  lawful ->
  G !! graph_type = Some by_clustering -> by_clustering !! src = Some by_role ->
  by_role !! "src" = Some src_g -> by_role !! "target" = Some target_g ->
  let args := encoder_args_of model in
  let enc := (train_egi_encoder src_g args (rng_state w)).1 in
  exists tr1 tc1 ve1 vc1 s tr2 tc2 ve2 vc2 t r,
    evaluated_on src_g enc tr1 tc1 ve1 vc1 s /\
    evaluated_on target_g enc tr2 tc2 ve2 vc2 t /\
    _do_run G model graph_type src target w =
      (Py.Ok tt,
       World (fs w) (stdout w) r
         (<["target-accuracy" := t]> (<["source-accuracy" := s]> (summary w)))
         (trace w ++
            [ev_train src_g args;
             ev_encode src_g; ev_fit 1000 tr1 tc1; ev_score ve1 vc1;
             wandb_summary_set "source-accuracy" s;
             ev_encode target_g; ev_fit 1000 tr2 tc2; ev_score ve2 vc2;
             wandb_summary_set "target-accuracy" t])).
Proof.
  intros Hlaw HG Hc Hs Ht args enc. unfold _do_run.
  rewrite (bind_getitem _ _ _ _ _ HG), (bind_getitem _ _ _ _ _ Hc), (bind_getitem _ _ _ _ _ Hs).
  rewrite (bind_getitem _ _ _ _ _ HG), (bind_getitem _ _ _ _ _ Hc), (bind_getitem _ _ _ _ _ Ht).
  rewrite bind_random. fold args. fold enc.
  unfold Py.bind at 1. cbn [emit Py.modify].
  set (w1 := World _ _ _ _ _).
  destruct (evaluation_phase src_g enc "source-accuracy"
              (fun _ => Py.bind (emit (ev_encode target_g)) (fun _ =>
                 Py.bind (edge_dataset target_g
                            (encoder_forward enc target_g
                               (degree_bucketing target_g HIDDEN_LAYERS)))
                   (fun x => let '(edges, values) := x in
                      Py.bind (classifier_score edges values) (fun score =>
                        Py.bind (summary_set "target-accuracy" score) Py.ret)))) w1 Hlaw)
    as (tr1 & tc1 & ve1 & vc1 & s & r1 & Hev1 & Hrun1).
  set (w2 := World (fs w1) (stdout w1) r1 (<["source-accuracy" := s]> (summary w1))
               (trace w1 ++ [ev_encode src_g; ev_fit 1000 tr1 tc1; ev_score ve1 vc1;
                             wandb_summary_set "source-accuracy" s])) in *.
  destruct (evaluation_phase target_g enc "target-accuracy" Py.ret w2 Hlaw)
    as (tr2 & tc2 & ve2 & vc2 & t & r2 & Hev2 & Hrun2).
  exists tr1, tc1, ve1, vc1, s, tr2, tc2, ve2, vc2, t, r2.
  split; [done|]. split; [done|].
  etrans; [exact Hrun1|]. cbv beta.
  etrans; [exact Hrun2|].
  unfold Py.ret, w2, w1. cbn. by rewrite <- !app_assoc.
Qed.


(** [_do_run] never looks at its [target] argument. *)
Lemma _do_run_ignores_target (G : gmap string (gmap string (gmap string DGLGraph)))
    (model graph_type src target target' : string) :
  _do_run G model graph_type src target = _do_run G model graph_type src target'.
Proof. reflexivity. Qed.

(** The graphs of a run: the encoder is trained on [G[graph_type][src]["src"]]
    and applied to that graph and then to [G[graph_type][src]["target"]]. *)
Lemma _do_run_graphs (G : gmap string (gmap string (gmap string DGLGraph)))
    (model graph_type src target : string) (w : world) (src_g target_g : DGLGraph) :
  lawful ->
  graph_at G graph_type src "src" = Some src_g ->
  graph_at G graph_type src "target" = Some target_g ->
  exists w' evs,
    _do_run G model graph_type src target w = (Py.Ok tt, w') /\
    trace w' = trace w ++ evs /\
    trained_on evs = [src_g] /\ encoded evs = [src_g; target_g].
Proof.
  intros Hlaw Hs Ht. unfold graph_at in Hs, Ht.
  destruct (G !! graph_type) as [by_clustering|] eqn:HG; [|done].
  destruct (by_clustering !! src) as [by_role|] eqn:Hc; [|done].
  destruct (_do_run_spec G model graph_type src target w _ _ _ _ Hlaw HG Hc Hs Ht)
    as (tr1 & tc1 & ve1 & vc1 & s & tr2 & tc2 & ve2 & vc2 & t & r & _ & _ & Hrun).
  eexists _, _. split; [exact Hrun|]. cbn [trace]. split; [reflexivity|]. done.
Qed.

(** C4: on a path that is not an existing file, [_load_edgelist] prints
    the message naming the path and leaves with [SystemExit(1)]; on a
    file whose content networkx can read it returns the DGL graph built
    from the networkx graph, with nothing printed. *)
Theorem _load_edgelist_spec (path : string) (w : world) :
  ((forall content, fs w !! path <> Some (RegularFile content)) ->
   _load_edgelist path w =
     (Py.Raise (Py.SystemExit 1),
      World (fs w)
        (stdout w ++ ["File " +:+ path +:+
           " does not exist - generate the dataset before running this script!"])
        (rng_state w) (summary w) (trace w)))
  /\ (forall content g,
        fs w !! path = Some (RegularFile content) ->
        nx_read_edgelist content = Py.Ok g ->
        _load_edgelist path w = (Py.Ok (dgl_from_networkx g), w)).
Proof.
  split.
  - intros Hno. unfold _load_edgelist, Py.bind, is_file, Py.get, Py.ret. cbn.
    destruct (fs w !! path) as [[content|]|] eqn:Hp; [by destruct (Hno content)|done..].
  - intros content g Hp Hread.
    unfold _load_edgelist, Py.bind, is_file, read_edgelist, Py.get, Py.ret, Py.lift.
    cbn. rewrite Hp. cbn. rewrite ?Hp. cbn. by rewrite Hread.
Qed.

Lemma getitem_int_raises {A} (t : list A) (i : Z) (e : Py.exn) :
  getitem_int t i = Py.Raise e -> e = Py.IndexError.
Proof.
  unfold getitem_int. repeat case_match; congruence.
Qed.

(** C9: when the scalar product is commutative, the edge embedding does
    not depend on the order of the endpoints: [_get_edge_embedding(emb,
    a, b)] and [_get_edge_embedding(emb, b, a)] give the same vector (or
    both raise [IndexError]), and [us * vs] equals [vs * us] for the
    matrices of [_do_run]. *)
Theorem edge_embedding_symmetric (emb : list (list scalar)) (a b : Z)
    (us vs : list (list scalar)) :
  (forall x y, tensor_mul x y = tensor_mul y x) ->
  _get_edge_embedding emb a b = _get_edge_embedding emb b a /\
  tensor_mul2 us vs = tensor_mul2 vs us.
Proof.
  intros Hcomm. split.
  - unfold _get_edge_embedding.
    destruct (getitem_int emb a) as [ea|e1] eqn:Ha;
      destruct (getitem_int emb b) as [eb|e2] eqn:Hb.
    + unfold np_multiply. f_equal. by apply zip_with_comm.
    + done.
    + done.
    + apply getitem_int_raises in Ha, Hb. by subst.
  - unfold tensor_mul2. apply zip_with_comm. intros x y. by apply zip_with_comm.
Qed.






Variable shuffle : list (string * string) -> rng -> list (string * string) * rng.




End Steps.
End clustered_experiment_facts.

(** ** The sweep scripts: command line and sweep registration *)
Module sweep_facts.
Import pyobj sweep_spec Py_facts.

Lemma dict_get_set_eq (d : dict) (key : string) (v : pyval) :
  dict_get (dict_set d key v) key = Some v.
Proof.
  induction d as [|[k' v'] d IH]; simpl.
  - by rewrite String.eqb_refl.
  - destruct (String.eqb k' key) eqn:Hk; simpl; rewrite Hk; done.
Qed.

Lemma dict_get_set_ne (d : dict) (key key' : string) (v : pyval) :
  key <> key' -> dict_get (dict_set d key v) key' = dict_get d key'.
Proof.
  intros Hne. induction d as [|[k' v'] d IH]; simpl.
  - apply String.eqb_neq in Hne. by rewrite Hne.
  - destruct (String.eqb k' key) eqn:Hk; simpl.
    + apply String.eqb_eq in Hk as ->.
      apply String.eqb_neq in Hne. by rewrite Hne.
    + destruct (String.eqb k' key'); done.
Qed.

Section Scripts.
Variable match_args :
  list argparse.argument -> list string -> Py.res (gmap string string).
Variable new_sweep_id : dict -> string.
Variable current_date_time : string.

Lemma airport_rejects (argv : list string) (raw : gmap string string) (m : string)
    (w : wandb.world) :
  match_args sweep_airport.parser argv = Py.Ok raw ->
  raw !! "model" = Some m -> m ∉ model_choices ->
  argparse.parse_args match_args sweep_airport.parser argv w
    = (Py.Raise (Py.SystemExit 2), w).
Proof.
  intros Hraw Hm Hnot. unfold argparse.parse_args. rewrite Hraw.
  unfold sweep_airport.parser, Py.lift. cbn [argparse.get_values].
  unfold argparse.get_value. cbn [argparse.dest argparse.choices]. rewrite Hm.
  fold model_choices. by rewrite bool_decide_eq_false_2.
Qed.

Lemma triangle_rejects (argv : list string) (raw : gmap string string) (m : string)
    (w : wandb.world) :
  match_args sweep_triangle_detection.parser argv = Py.Ok raw ->
  raw !! "model" = Some m -> m ∉ model_choices ->
  argparse.parse_args match_args sweep_triangle_detection.parser argv w
    = (Py.Raise (Py.SystemExit 2), w).
Proof.
  intros Hraw Hm Hnot. unfold argparse.parse_args. rewrite Hraw.
  unfold sweep_triangle_detection.parser, Py.lift. cbn [argparse.get_values].
  unfold argparse.get_value at 1. cbn [argparse.dest argparse.choices]. rewrite Hm.
  fold model_choices. by rewrite bool_decide_eq_false_2.
Qed.

(** A parser whose first argument is the positional [model] with the
    three choices stores a model among the choices, when it succeeds. *)
Lemma get_values_model (raw : gmap string string) (rest : list argparse.argument)
    (ns : argparse.namespace) :
  "model" ∉ argparse.dest <$> rest ->
  argparse.get_values raw
    (argparse.Argument "model" "model" true (Some model_choices) None :: rest) = Py.Ok ns ->
  exists m, raw !! "model" = Some m /\ m ∈ model_choices /\ ns !! "model" = Some (Some m).
Proof.
  intros Hrest. cbn [argparse.get_values].
  unfold argparse.get_value at 1. cbn [argparse.dest argparse.choices argparse.positional].
  destruct (raw !! "model") as [m|] eqn:Hm; [|done].
  case_bool_decide as Hin; [|done].
  destruct (argparse.get_values raw rest) as [ns'|]; [|done].
  intros [= <-]. exists m. by rewrite lookup_insert_eq.
Qed.

Lemma parse_failure_airport (argv : list string) (e : Py.exn) (w w' : wandb.world) :
  argparse.parse_args match_args sweep_airport.parser argv w = (Py.Raise e, w') ->
  sweep_airport.main match_args new_sweep_id current_date_time argv w = (Py.Raise e, w).
Proof.
  intros Hp. unfold sweep_airport.main, Py.bind.
  assert (w' = w) as ->.
  { unfold argparse.parse_args in Hp.
    destruct (match_args _ _); unfold Py.lift, Py.raise in Hp; congruence. }
  by rewrite Hp.
Qed.

Lemma parse_failure_triangle (argv : list string) (e : Py.exn) (w w' : wandb.world) :
  argparse.parse_args match_args sweep_triangle_detection.parser argv w = (Py.Raise e, w') ->
  sweep_triangle_detection.main match_args new_sweep_id current_date_time argv w
    = (Py.Raise e, w).
Proof.
  intros Hp. unfold sweep_triangle_detection.main, Py.bind.
  assert (w' = w) as ->.
  { unfold argparse.parse_args in Hp.
    destruct (match_args _ _); unfold Py.lift, Py.raise in Hp; congruence. }
  by rewrite Hp.
Qed.

(** C7: in both sweep scripts a command line whose model value is not
    "egi", "triangle" or "graphsage" makes [main] leave with argparse's
    error status 2 in an untouched world (no sweep registered, no agent
    started, [sweep_config] as it was); and whenever parsing succeeds the
    stored model is one of the three. *)
Theorem model_choices_enforced (argv : list string) (w : wandb.world) :
  (forall raw m,
     match_args sweep_airport.parser argv = Py.Ok raw ->
     raw !! "model" = Some m -> m ∉ model_choices ->
     sweep_airport.main match_args new_sweep_id current_date_time argv w
       = (Py.Raise (Py.SystemExit 2), w)) /\
  (forall raw m,
     match_args sweep_triangle_detection.parser argv = Py.Ok raw ->
     raw !! "model" = Some m -> m ∉ model_choices ->
     sweep_triangle_detection.main match_args new_sweep_id current_date_time argv w
       = (Py.Raise (Py.SystemExit 2), w)) /\
  (forall ns w',
     argparse.parse_args match_args sweep_airport.parser argv w = (Py.Ok ns, w') ->
     exists m, m ∈ model_choices /\ ns !! "model" = Some (Some m)) /\
  (forall ns w',
     argparse.parse_args match_args sweep_triangle_detection.parser argv w = (Py.Ok ns, w') ->
     exists m, m ∈ model_choices /\ ns !! "model" = Some (Some m)).
Proof.
  split; [|split; [|split]].
  - intros raw m Hraw Hm Hnot.
    eapply parse_failure_airport, airport_rejects; eauto.
  - intros raw m Hraw Hm Hnot.
    eapply parse_failure_triangle, triangle_rejects; eauto.
  - intros ns w'. unfold argparse.parse_args.
    destruct (match_args _ _) as [raw|]; [|done].
    unfold Py.lift. intros [= Hns _].
    apply (get_values_model raw [] ns) in Hns as (m & _ & Hin & Hm); [exists m; by split|].
    cbn. apply not_elem_of_nil.
  - intros ns w'. unfold argparse.parse_args.
    destruct (match_args _ _) as [raw|]; [|done].
    unfold Py.lift. intros [= Hns _].
    apply (get_values_model raw [argparse.Argument "--sweep-id" "sweep_id" false None None] ns)
      in Hns as (m & _ & Hin & Hm); [exists m; by split|].
    cbn. rewrite not_elem_of_cons. split; [done|apply not_elem_of_nil].
Qed.

Lemma bind_parse_triangle {B} (argv : list string) (raw : gmap string string)
    (m : string) (k : argparse.namespace -> Py.M wandb.world B) (w : wandb.world) :
  match_args sweep_triangle_detection.parser argv = Py.Ok raw ->
  raw !! "model" = Some m -> m ∈ model_choices ->
  Py.bind (argparse.parse_args match_args sweep_triangle_detection.parser argv) k w
    = k (<["model" := Some m]> (<["sweep_id" := raw !! "sweep_id"]> ∅)) w.
Proof.
  intros Hraw Hm Hin. unfold Py.bind, argparse.parse_args. rewrite Hraw.
  unfold sweep_triangle_detection.parser, Py.lift. cbn [argparse.get_values].
  unfold argparse.get_value. cbn [argparse.dest argparse.choices argparse.positional
    argparse.default]. rewrite Hm. fold model_choices.
  rewrite bool_decide_eq_true_2 by done.
  by destruct (raw !! "sweep_id").
Qed.

Lemma bind_getattr {B} (ns : argparse.namespace) (attr : string) (v : option string)
    (k : option string -> Py.M wandb.world B) (w : wandb.world) :
  ns !! attr = Some v -> Py.bind (argparse.getattr ns attr) k w = k v w.
Proof. intros Hv. unfold Py.bind, argparse.getattr. by rewrite Hv. Qed.

(** C10: for a command line with a valid model, when [--sweep-id ID] is
    given [main] only starts the agent on [ID]: [sweep_config] and the
    rest of the state are unchanged and no sweep is registered; when it
    is absent, [sweep_config] gets its "name" entry and "model" parameter,
    a sweep is registered with that configuration, and the agent is
    started on the new sweep's id. *)
Theorem sweep_id_frame (argv : list string) (raw : gmap string string) (m : string)
    (w : wandb.world) :
  match_args sweep_triangle_detection.parser argv = Py.Ok raw ->
  raw !! "model" = Some m -> m ∈ model_choices ->
  (forall id,
     raw !! "sweep_id" = Some id ->
     sweep_triangle_detection.main match_args new_sweep_id current_date_time argv w =
       (Py.Ok tt,
        wandb.World (wandb.sweep_config w) (wandb.controller w) (wandb.config w)
          (wandb.summary w) (wandb.trace w ++ [wandb.agent id "sweep_runner"]))) /\
  (raw !! "sweep_id" = None ->
   forall parameters,
     dict_get (wandb.sweep_config w) "parameters" = Some (PDict parameters) ->
     let cfg := named_config current_date_time (wandb.sweep_config w) parameters m in
     sweep_triangle_detection.main match_args new_sweep_id current_date_time argv w =
       (Py.Ok tt,
        wandb.World cfg (wandb.controller w) (wandb.config w) (wandb.summary w)
          (wandb.trace w ++
             [wandb.sweep cfg (Some sweep_triangle_detection.project)
                (Some sweep_triangle_detection.entity);
              wandb.agent (new_sweep_id cfg) "sweep_runner"])) /\
     dict_get cfg "name" = Some (PStr (m +:+ " (" +:+ current_date_time +:+ ")")) /\
     exists parameters',
       dict_get cfg "parameters" = Some (PDict parameters') /\
       dict_get parameters' "model" = Some (PDict [("value", PStr m)])).
Proof.
  intros Hraw Hm Hin. split.
  - intros id Hid. unfold sweep_triangle_detection.main.
    rewrite (bind_parse_triangle _ _ _ _ _ Hraw Hm Hin), Hid.
    rewrite (bind_getattr _ "model" (Some m)) by apply lookup_insert_eq.
    rewrite (bind_getattr _ "sweep_id" (Some id))
      by (rewrite lookup_insert_ne by done; apply lookup_insert_eq).
    reflexivity.
  - intros Hid parameters Hparams cfg. split; [|split].
    + unfold sweep_triangle_detection.main.
      rewrite (bind_parse_triangle _ _ _ _ _ Hraw Hm Hin), Hid.
      rewrite (bind_getattr _ "model" (Some m)) by apply lookup_insert_eq.
      rewrite (bind_getattr _ "sweep_id" None)
        by (rewrite lookup_insert_ne by done; apply lookup_insert_eq).
      unfold sweep_triangle_detection.add_name,
        sweep_triangle_detection.add_model_parameter, wandb.set_sweep_config,
        wandb.emit, Py.get, Py.modify, Py.ret, Py.bind.
      cbn [wandb.sweep_config wandb.controller wandb.config wandb.summary wandb.trace
           format of_option].
      rewrite dict_get_set_ne by done. rewrite Hparams.
      cbn [wandb.sweep_config wandb.controller wandb.config wandb.summary wandb.trace].
      fold (named_config current_date_time (wandb.sweep_config w) parameters m). fold cfg.
      by rewrite <- app_assoc.
    + unfold cfg, named_config. rewrite dict_get_set_ne by done. apply dict_get_set_eq.
    + eexists. split; [apply dict_get_set_eq|apply dict_get_set_eq].
Qed.

End Scripts.

Section Averages.
Import wandb.


Lemma runner_loop_spec (do_run : Py.M world unit) (w w' : world) (vs : list Q) :
  runs_yield do_run "target-accuracy" w vs w' ->
  forall (range_ : list Z) (acc : Q),
    length range_ = length vs ->
    sweep_triangle_detection.runner_loop do_run range_ acc w
      = (Py.Ok (fold_left Qplus vs acc), w').
Proof.
  induction 1 as [w|w w1 w' v vs Hrun Hv _ IH]; intros range_ acc Hlen.
  - destruct range_; [|done]. done.
  - destruct range_ as [|i range_]; [done|]. simpl in Hlen.
    cbn [sweep_triangle_detection.runner_loop]. unfold Py.bind at 1. rewrite Hrun.
    unfold Py.bind at 1, summary_get, Py.bind at 1, Py.get, Py.getitem. rewrite Hv.
    unfold Py.ret. by rewrite IH by lia.
Qed.

Lemma fold_left_Qplus (vs : list Q) (acc : Q) :
  (fold_left Qplus vs acc == acc + fold_right Qplus 0 vs)%Q.
Proof.
  revert acc. induction vs as [|v vs IH]; intros acc; simpl.
  - ring.
  - rewrite IH. ring.
Qed.

Lemma length_range (n : nat) : length (Py.range (Z.of_nat n)) = n.
Proof. unfold Py.range. by rewrite length_fmap, length_seq, Nat2Z.id. Qed.



End Averages.
End sweep_facts.

(** ** The properties at work on the small environment *)
Module witnesses.
Import clustered_experiment clustered_experiment_spec clustered_experiment_facts.
Import pyobj sweep_spec sweep_facts.

Example product_trials :
  product MODELS GRAPH_TYPES =
    [("egi", "scalefree"); ("egi", "poisson"); ("triangle", "scalefree"); ("triangle", "poisson")].
Proof. reflexivity. Qed.

Example permutations2_clusterings :
  permutations2 ["clustered"; "unclustered"] =
    [("clustered", "unclustered"); ("unclustered", "clustered")].
Proof. reflexivity. Qed.

Example permutations2_three :
  permutations2 [1; 2; 3] = [(1, 2); (1, 3); (2, 1); (2, 3); (3, 1); (3, 2)].
Proof. reflexivity. Qed.

Example range_N_RUNS : Py.range N_RUNS = [0; 1; 2; 3; 4]%Z.
Proof. reflexivity. Qed.

Example range_negative : Py.range (-3) = [].
Proof. reflexivity. Qed.

Example run_name_example :
  run_name "egi" "poisson" "clustered" "unclustered" 3 = "egi-poisson-clustered-unclustered-3".
Proof. reflexivity. Qed.

Example getitem_int_last : getitem_int [10; 20; 30] (-1) = Py.Ok 30.
Proof. reflexivity. Qed.

Example getitem_int_out_of_range :
  getitem_int [10; 20; 30] 3 = Py.Raise Py.IndexError /\
  getitem_int [10; 20; 30] (-4) = Py.Raise Py.IndexError.
Proof. split; reflexivity. Qed.

Example index_select_out_of_range :
  @index_select nat unit [10; 20; 30] [0; 3] tt = (Py.Raise Py.IndexError, tt).
Proof. reflexivity. Qed.

Example dict_set_replaces_in_place :
  dict_set [("a", PInt 1); ("b", PInt 2)] "a" (PInt 3) = [("a", PInt 3); ("b", PInt 2)] /\
  dict_set [("a", PInt 1); ("b", PInt 2)] "c" (PInt 3)
    = [("a", PInt 1); ("b", PInt 2); ("c", PInt 3)].
Proof. split; reflexivity. Qed.

Example airport_accepts_graphsage :
  wandb.trace (sweep_airport.main toy.match_args toy.new_sweep_id "now" ["graphsage"]
                 toy.airport_world).2
  = [wandb.sweep
       (named_config "now" sweep_airport.sweep_config
          [ ("n_runs", PDict [("value", PInt 5)]);
            ("batch_size", PDict [("values", PList [PInt 16; PInt 32; PInt 64])]);
            ("hidden_layers", PDict [("min", PInt 16); ("max", PInt 128)]);
            ("lr", PDict [("min", PFloat (1 # 10000)); ("max", PFloat (1 # 10))]);
            ("k", PDict [("min", PInt 1); ("max", PInt 5)]);
            ("patience", PDict [("value", PInt 20)]);
            ("min_delta", PDict [("value", PFloat (1 # 100))]);
            ("epochs", PDict [("value", PInt 200)]) ]
          "graphsage")
       None None;
     wandb.agent "sweep0" "train"].
Proof. reflexivity. Qed.

Lemma toy_embedded (pairs : list (nat * nat)) :
  Forall (fun p => p.1 < 3 /\ p.2 < 3) pairs ->
  @embedded toy.libs [[1; 2]; [3; 4]; [5; 6]]%Z pairs.
Proof.
  intros Hp. split; apply Forall_fmap; eapply Forall_impl; [exact Hp| |exact Hp|];
    intros [u v] [Hu Hv]; unfold compose; cbn in *; lia.
Qed.

Lemma toy_lawful : @lawful toy.libs.
Proof.
  split.
  - intros n s. simpl. apply reverse_Permutation.
  - intros enc g. apply toy_embedded. repeat constructor; simpl; lia.
  - intros enc g s. apply toy_embedded. unfold negatives. simpl.
    repeat constructor; simpl; lia.
Qed.





Lemma _load_edgelist_spec_witness :
  @_load_edgelist toy.libs "nowhere.edgelist" toy.world0 =
    (Py.Raise (Py.SystemExit 1),
     @World toy.libs toy.files
       ["File nowhere.edgelist does not exist - generate the dataset before running this script!"]
       0 ∅ []).
Proof.
  apply (proj1 (@_load_edgelist_spec toy.libs "nowhere.edgelist" toy.world0)).
  intros content H. vm_compute in H. discriminate.
Defined.




Lemma model_choices_enforced_witness :
  sweep_airport.main toy.match_args toy.new_sweep_id "2024-01-01 (T0000)" ["resnet"]
    toy.airport_world = (Py.Raise (Py.SystemExit 2), toy.airport_world).
Proof.
  apply (proj1 (model_choices_enforced toy.match_args toy.new_sweep_id
                  "2024-01-01 (T0000)" ["resnet"] toy.airport_world)
           {[ "model" := "resnet" ]} "resnet"); [reflexivity|reflexivity|].
  unfold model_choices. rewrite !not_elem_of_cons.
  repeat split; try discriminate. apply not_elem_of_nil.
Defined.

Lemma edge_dataset_balanced_witness :
  exists (edges : list (list Z)) (values : list Z) (w' : @world toy.libs),
    @edge_dataset toy.libs "powerlaw-clustered-100-0.edgelist" [[1; 2]; [3; 4]; [5; 6]]%Z
      toy.world0 = (Py.Ok (edges, values), w') /\
    length values = 8 /\
    count_occ Z.eq_dec values 1%Z = 4 /\ count_occ Z.eq_dec values 0%Z = 4.
Proof.
  destruct (@edge_dataset_balanced toy.libs "powerlaw-clustered-100-0.edgelist"
              [[1; 2]; [3; 4]; [5; 6]]%Z toy.world0
              (law_randperm toy_lawful) (law_edges toy_lawful tt _)
              (law_negatives toy_lawful tt _) (fun _ => eq_refl))
    as (_ & _ & _ & edges & values & w' & Hrun & _ & Hlen & H1 & H0).
  exists edges, values, w'. split; [exact Hrun|]. split; [exact Hlen|].
  split; [exact H1|exact H0].
Defined.

Lemma edge_embedding_symmetric_witness :
  @_get_edge_embedding toy.libs [[1; 2]; [3; 4]; [5; 6]]%Z 0 (-1)
    = @_get_edge_embedding toy.libs [[1; 2]; [3; 4]; [5; 6]]%Z (-1) 0 /\
  @tensor_mul2 toy.libs [[1; 2]]%Z [[5; 6]]%Z = @tensor_mul2 toy.libs [[5; 6]]%Z [[1; 2]]%Z.
Proof.
  apply (@edge_embedding_symmetric toy.libs). intros x y. apply Z.mul_comm.
Defined.

Lemma sweep_id_frame_witness :
  sweep_triangle_detection.main toy.match_args toy.new_sweep_id "2024-01-01 (T0000)"
    ["egi"; "--sweep-id"; "abc123"] toy.triangle_world =
    (Py.Ok tt,
     wandb.World sweep_triangle_detection.sweep_config {[ "sweep_n_runs" := PInt 2 ]} ∅ ∅
       [wandb.agent "abc123" "sweep_runner"]).
Proof.
  apply (proj1 (sweep_id_frame toy.match_args toy.new_sweep_id "2024-01-01 (T0000)"
                  ["egi"; "--sweep-id"; "abc123"]
                  {[ "model" := "egi"; "sweep_id" := "abc123" ]} "egi" toy.triangle_world
                  eq_refl eq_refl (list_elem_of_here _ _)) "abc123" eq_refl).
Defined.

End witnesses.

(** ** Loading the graphs when the module is imported *)
Module import_facts.
Import clustered_experiment clustered_experiment_spec clustered_experiment_io Py_facts.

Section Loading.
Context `{L : Libraries}.

Lemma bind_raise {S A B} (c : Py.M S A) (k : A -> Py.M S B) (s s' : S) (e : Py.exn) :
  c s = (Py.Raise e, s') -> Py.bind c k s = (Py.Raise e, s').
Proof. intros Hc. unfold Py.bind. by rewrite Hc. Qed.

Lemma _load_edgelist_loaded (path : string) (w : world) (g : DGLGraph) :
  loaded_graph w path = Some g -> _load_edgelist path w = (Py.Ok g, w).
Proof.
  unfold loaded_graph. intros Hg.
  destruct (fs w !! path) as [[content|]|] eqn:Hp; try discriminate.
  destruct (nx_read_edgelist content) as [nx|] eqn:Hread; [|discriminate].
  injection Hg as <-.
  unfold _load_edgelist, Py.bind, is_file, read_edgelist, Py.get, Py.ret, Py.lift.
  cbn. rewrite Hp. cbn. rewrite ?Hp. cbn. by rewrite Hread.
Qed.

Lemma _load_edgelist_missing (path : string) (w : world) :
  (forall content, fs w !! path <> Some (RegularFile content)) ->
  _load_edgelist path w = (Py.Raise (Py.SystemExit 1), printed w (missing_message path)).
Proof.
  intros Hno. unfold _load_edgelist, Py.bind, is_file, Py.get, Py.ret. cbn.
  destruct (fs w !! path) as [[content|]|] eqn:Hp; [by destruct (Hno content)|done..].
Qed.

Lemma _load_edgelist_unreadable (path content : string) (e : Py.exn) (w : world) :
  fs w !! path = Some (RegularFile content) -> nx_read_edgelist content = Py.Raise e ->
  _load_edgelist path w = (Py.Raise e, w).
Proof.
  intros Hp Hread.
  unfold _load_edgelist, Py.bind, is_file, read_edgelist, Py.get, Py.ret, Py.lift.
  cbn. rewrite Hp. cbn. rewrite ?Hp. cbn. by rewrite Hread.
Qed.

(** One successful load in the chain of [GRAPHS]. *)
Ltac load_step Hprev p :=
  let g := fresh "g" in
  let Hg := fresh "Hg" in
  destruct (Hprev p _ ltac:(lia) eq_refl) as [g Hg];
  rewrite (bind_ok _ _ _ _ _ (_load_edgelist_loaded _ _ _ Hg)).

(** The import stops at the first file that fails to load, with that
    failure. *)
Lemma GRAPHS_first_failure (DATA_DIR : string) (w w' : world) (i : nat)
    (name : string) (e : Py.exn) :
  GRAPH_FILES !! i = Some name ->
  (forall j earlier, j < i -> GRAPH_FILES !! j = Some earlier ->
     is_Some (loaded_graph w (joinpath DATA_DIR earlier))) ->
  _load_edgelist (joinpath DATA_DIR name) w = (Py.Raise e, w') ->
  GRAPHS DATA_DIR w = (Py.Raise e, w').
Proof.
  intros Hi Hprev Hfail. unfold GRAPHS.
  destruct i as [|i]; [injection Hi as <-; by apply bind_raise|]. load_step Hprev 0.
  destruct i as [|i]; [injection Hi as <-; by apply bind_raise|]. load_step Hprev 1.
  destruct i as [|i]; [injection Hi as <-; by apply bind_raise|]. load_step Hprev 2.
  destruct i as [|i]; [injection Hi as <-; by apply bind_raise|]. load_step Hprev 3.
  destruct i as [|i]; [injection Hi as <-; by apply bind_raise|]. load_step Hprev 4.
  destruct i as [|i]; [injection Hi as <-; by apply bind_raise|]. load_step Hprev 5.
  destruct i as [|i]; [injection Hi as <-; by apply bind_raise|]. load_step Hprev 6.
  destruct i as [|i]; [injection Hi as <-; by apply bind_raise|].
  discriminate Hi.
Qed.

(** X1: when each of the eight files is a regular file that networkx can
    read, the import completes without printing or changing anything, and
    the table holds, under each (graph type, clustering, role), the DGL
    graph of the file the display names there. *)
Theorem GRAPHS_loads_every_file (DATA_DIR : string) (w : world) :
  (forall name, name ∈ GRAPH_FILES -> is_Some (loaded_graph w (joinpath DATA_DIR name))) ->
  exists G,
    GRAPHS DATA_DIR w = (Py.Ok G, w) /\
    forall graph_type clustering role name,
      (graph_type, clustering, role, name) ∈ GRAPH_KEYS ->
      graph_at G graph_type clustering role = loaded_graph w (joinpath DATA_DIR name).
Proof.
  intros Hall.
  assert (Hprev : forall j name, j < 8 -> GRAPH_FILES !! j = Some name ->
                    is_Some (loaded_graph w (joinpath DATA_DIR name))).
  { intros j name _ Hj. apply Hall. by eapply list_elem_of_lookup_2. }
  unfold GRAPHS.
  load_step Hprev 0. load_step Hprev 1. load_step Hprev 2. load_step Hprev 3.
  load_step Hprev 4. load_step Hprev 5. load_step Hprev 6. load_step Hprev 7.
  eexists. split; [reflexivity|].
  intros graph_type clustering role name Hin.
  unfold GRAPH_KEYS in Hin. rewrite !elem_of_cons in Hin.
  repeat (destruct Hin as [[= -> -> -> ->]|Hin];
          [match goal with H : loaded_graph _ _ = Some _ |- _ = loaded_graph _ ?p =>
             match type of H with loaded_graph _ p = _ => rewrite H; reflexivity end
           end|]).
  by apply elem_of_nil in Hin.
Qed.

(** X2: when the files before some file of the list load and that file is
    not a regular file, the import leaves with [SystemExit(1)] after
    printing the one line that names this file; the files after it are not
    looked at (they may be missing as well). *)
Theorem GRAPHS_exits_at_first_missing_file (DATA_DIR : string) (w : world) (i : nat)
    (name : string) :
  GRAPH_FILES !! i = Some name ->
  (forall j earlier, j < i -> GRAPH_FILES !! j = Some earlier ->
     is_Some (loaded_graph w (joinpath DATA_DIR earlier))) ->
  (forall content, fs w !! joinpath DATA_DIR name <> Some (RegularFile content)) ->
  GRAPHS DATA_DIR w =
    (Py.Raise (Py.SystemExit 1), printed w (missing_message (joinpath DATA_DIR name))).
Proof.
  intros Hi Hprev Hno.
  eapply GRAPHS_first_failure; [exact Hi|exact Hprev|]. by apply _load_edgelist_missing.
Qed.

Variable shuffle : list (string * string) -> rng -> list (string * string) * rng.


End Loading.
End import_facts.

(** ** What a run touches, and how it fails *)
Module run_facts.
Import clustered_experiment clustered_experiment_spec clustered_experiment_io.
Import Py_facts clustered_experiment_facts import_facts.

Section Frame.
Context `{L : Libraries}.
Variable allowed : event -> Prop.
Variable keys : list string.

Lemma frame_ret {A} (a : A) : frame allowed keys (Py.ret a).
Proof.
  intros w r w' [= <- <-]. split; [done|]. split; [done|]. split; [|done].
  exists []. by rewrite app_nil_r.
Qed.

Lemma frame_raise {A} (e : Py.exn) : frame allowed keys (@Py.raise world A e).
Proof.
  intros w r w' [= <- <-]. split; [done|]. split; [done|]. split; [|done].
  exists []. by rewrite app_nil_r.
Qed.

Lemma frame_getitem {V} (d : gmap string V) (key : string) :
  frame allowed keys (Py.getitem d key).
Proof. unfold Py.getitem. destruct (d !! key); [apply frame_ret|apply frame_raise]. Qed.

Lemma frame_index_select {A} (t : list A) (idx : list nat) :
  frame allowed keys (index_select t idx).
Proof. unfold index_select. destruct (mapM _ idx); [apply frame_ret|apply frame_raise]. Qed.

Lemma frame_random {A} (f : rng -> A * rng) : frame allowed keys (random f).
Proof.
  intros w r w'. unfold random. destruct (f (rng_state w)) as [a s]. intros [= <- <-].
  split; [done|]. split; [done|]. split; [|done]. exists []. by rewrite app_nil_r.
Qed.

Lemma frame_emit (e : event) : allowed e -> frame allowed keys (emit e).
Proof.
  intros He w r w' [= <- <-]. split; [done|]. split; [done|]. split; [|done].
  exists [e]. by repeat constructor.
Qed.

Lemma frame_summary_set (key : string) (v : Q) :
  key ∈ keys -> allowed (wandb_summary_set key v) -> frame allowed keys (summary_set key v).
Proof.
  intros Hkey He w r w' [= <- <-]. cbn. split; [done|]. split; [done|]. split.
  - exists [wandb_summary_set key v]. by repeat constructor.
  - intros key' Hnot. apply lookup_insert_ne. by intros ->.
Qed.

Lemma frame_bind {A B} (c : Py.M world A) (k : A -> Py.M world B) :
  frame allowed keys c -> (forall a, frame allowed keys (k a)) ->
  frame allowed keys (Py.bind c k).
Proof.
  intros Hc Hk w r w'. unfold Py.bind.
  destruct (c w) as [[a|e] w1] eqn:Hcw.
  - intros Hkw. destruct (Hc _ _ _ Hcw) as (Hf1 & Ho1 & (evs1 & Ht1 & Ha1) & Hs1).
    destruct (Hk a _ _ _ Hkw) as (Hf2 & Ho2 & (evs2 & Ht2 & Ha2) & Hs2).
    split; [congruence|]. split; [congruence|]. split.
    + exists (evs1 ++ evs2). split; [by rewrite Ht2, Ht1, app_assoc|by apply Forall_app].
    + intros key Hnot. by rewrite Hs2, Hs1.
  - intros [= <- <-]. exact (Hc _ _ _ Hcw).
Qed.


Lemma frame_edge_dataset (g : DGLGraph) (embs : list (list scalar)) :
  frame allowed keys (edge_dataset g embs).
Proof.
  unfold edge_dataset.
  repeat first [apply frame_random | apply frame_index_select | apply frame_ret
               | apply frame_bind; [|intros ?]].
Qed.

End Frame.

Section Runs.
Context `{L : Libraries}.


Lemma frame_classifier_score (edges : list (list scalar)) (values : list Z) :
  frame inside_run score_keys (classifier_score edges values).
Proof.
  unfold classifier_score. apply frame_bind; [apply frame_random|].
  intros [[[train_edges val_edges] train_classes] val_classes].
  apply frame_bind; [apply frame_random|intros classifier].
  apply frame_bind; [by apply frame_emit|intros _].
  apply frame_bind; [by apply frame_emit|intros _]. apply frame_ret.
Qed.

Lemma frame__do_run (G : gmap string (gmap string (gmap string DGLGraph)))
    (model graph_type src target : string) :
  frame inside_run score_keys (_do_run G model graph_type src target).
Proof.
  unfold _do_run.
  do 6 (apply frame_bind; [apply frame_getitem|intros ?]).
  apply frame_bind; [apply frame_random|intros encoder].
  apply frame_bind; [by apply frame_emit|intros _].
  apply frame_bind; [by apply frame_emit|intros _].
  apply frame_bind; [apply frame_edge_dataset|intros [edges values]].
  apply frame_bind; [apply frame_classifier_score|intros score].
  apply frame_bind; [apply frame_summary_set; [by left|done]|intros _].
  apply frame_bind; [by apply frame_emit|intros _].
  apply frame_bind; [apply frame_edge_dataset|intros [edges' values']].
  apply frame_bind; [apply frame_classifier_score|intros score'].
  apply frame_summary_set; [by right; left|done].
Qed.


(** X5: a graph type or a clustering that is not a key of the table makes
    the run raise [KeyError] for that key at its first statement: nothing
    is trained, logged or changed. *)
Theorem _do_run_unknown_key (G : gmap string (gmap string (gmap string DGLGraph)))
    (model graph_type src target : string) (w : world) :
  (G !! graph_type = None ->
   _do_run G model graph_type src target w = (Py.Raise (Py.KeyError graph_type), w)) /\
  (forall by_clustering,
     G !! graph_type = Some by_clustering -> by_clustering !! src = None ->
     _do_run G model graph_type src target w = (Py.Raise (Py.KeyError src), w)).
Proof.
  split.
  - intros HG. unfold _do_run, Py.bind, Py.getitem. by rewrite HG.
  - intros bc HG Hsrc. unfold _do_run.
    rewrite (bind_getitem _ _ _ _ _ HG). unfold Py.bind, Py.getitem. by rewrite Hsrc.
Qed.


Variable shuffle : list (string * string) -> rng -> list (string * string) * rng.

(** X7: when the first run raises, [main] ends with that exception in the
    state the run left: the trace ends with the run's [wandb.init] and what
    the run did, without a [wandb.finish], and no other run is started. *)
Theorem main_stops_at_failing_run (now : string)
    (G : gmap string (gmap string (gmap string DGLGraph)))
    (model graph_type : string) (rest : list (string * string))
    (w w2 : world) (e : Py.exn) :
  let first := Run model graph_type "clustered" "unclustered" 0 in
  (shuffle (product MODELS GRAPH_TYPES) (rng_state w)).1 = (model, graph_type) :: rest ->
  _do_run G model graph_type "clustered" "unclustered"
    (advance w (shuffle (product MODELS GRAPH_TYPES) (rng_state w)).2 [init_event now first])
    = (Py.Raise e, w2) ->
  main shuffle now G w = (Py.Raise e, w2) /\
  exists evs, trace w2 = trace w ++ init_event now first :: evs /\ Forall inside_run evs.
Proof.
  intros first Htrials Hrun. split.
  - unfold main. rewrite bind_random, Htrials.
    change (permutations2 ["clustered"; "unclustered"])
      with [("clustered", "unclustered"); ("unclustered", "clustered")].
    change (Py.range N_RUNS) with [0; 1; 2; 3; 4]%Z.
    cbn [Py.for_each]. do 3 apply bind_raise.
    unfold Py.bind at 1. cbn [emit Py.modify]. apply bind_raise. exact Hrun.
  - destruct (frame__do_run _ _ _ _ _ _ _ _ Hrun) as (_ & _ & (evs & Ht & Ha) & _).
    exists evs. split; [|done]. rewrite Ht. cbn [trace advance]. by rewrite <- app_assoc.
Qed.


End Runs.
End run_facts.

(** ** The edge dataset and edge embeddings at their bounds *)
Module dataset_facts.
Import clustered_experiment clustered_experiment_spec clustered_experiment_io.
Import Py_facts tensor_facts clustered_experiment_facts.

Section Dataset.
Context `{L : Libraries}.

Lemma mapM_lookup_out_of_range {A} (t : list A) (idx : list nat) :
  ~ Forall (fun i => i < length t) idx -> mapM (fun i => t !! i) idx = None.
Proof.
  intros Hnot. destruct (mapM (fun i => t !! i) idx) as [r|] eqn:Hr; [|done].
  destruct Hnot. apply mapM_Some_1 in Hr.
  induction Hr as [|i y idx r Hi _ IH]; constructor; [|done].
  by eapply lookup_lt_Some.
Qed.

Lemma bind_index_select_fail {A B} (t : list A) (idx : list nat)
    (k : list A -> Py.M world B) (w : world) :
  mapM (fun i => t !! i) idx = None ->
  Py.bind (index_select t idx) k w = (Py.Raise Py.IndexError, w).
Proof. intros Hr. unfold Py.bind, index_select. by rewrite Hr. Qed.

(** The dataset for the negative pairs drawn in world [w]. *)
Lemma edge_dataset_ok (g : DGLGraph) (embs : list (list scalar)) (w : world) :
  randperm_law -> embedded embs (dgl_edges g) ->
  embedded embs (negatives g (rng_state w)) ->
  exists edges values r,
    edge_dataset g embs w = (Py.Ok (edges, values), reseed w r) /\
    length edges = length values /\
    values ≡ₚ torch_ones (num_edges g) ++
              torch_zeros (length (negatives g (rng_state w))).
Proof.
  intros Hperm [Hus Hvs] [Hnus Hnvs]. unfold edge_dataset.
  rewrite bind_random. unfold negatives in *.
  set (negative := (global_uniform_negative_sampling g (num_edges g) (rng_state w)).1) in *.
  set (w1 := reseed w _).
  rewrite bind_random.
  pose proof (Hperm (num_edges g) (rng_state w1)) as Hmask.
  set (mask := (torch_randperm (num_edges g) (rng_state w1)).1) in *.
  set (w2 := reseed w1 _).
  destruct (mapM_lookup_perm (dgl_edges g).*1 mask) as (us & Hus' & Hpus);
    [by rewrite length_fmap|].
  destruct (mapM_lookup_perm (dgl_edges g).*2 mask) as (vs & Hvs' & Hpvs);
    [by rewrite length_fmap|].
  rewrite (bind_index_select _ _ _ _ _ Hus'), (bind_index_select _ _ _ _ _ Hvs').
  destruct (gather_rows embs _ us Hus Hpus) as (eus & Heus & Hleus).
  destruct (gather_rows embs _ vs Hvs Hpvs) as (evs & Hevs & Hlevs).
  destruct (gather_rows embs _ negative.*1 Hnus (reflexivity _)) as (enus & Henus & Hlenus).
  destruct (gather_rows embs _ negative.*2 Hnvs (reflexivity _)) as (envs & Henvs & Hlenvs).
  rewrite (bind_index_select _ _ _ _ _ Heus), (bind_index_select _ _ _ _ _ Hevs).
  rewrite (bind_index_select _ _ _ _ _ Henus), (bind_index_select _ _ _ _ _ Henvs).
  rewrite length_fmap in Hleus, Hlevs, Hlenus, Hlenvs.
  fold (num_edges g) in Hleus, Hlevs.
  assert (Hpos : length (tensor_mul2 eus evs) = num_edges g)
    by (unfold tensor_mul2; rewrite length_zip_with; lia).
  assert (Hnegl : length (tensor_mul2 enus envs) = length negative)
    by (unfold tensor_mul2; rewrite length_zip_with; lia).
  rewrite bind_random.
  set (edges := tensor_mul2 eus evs ++ tensor_mul2 enus envs).
  set (values := torch_ones _ ++ torch_zeros _).
  assert (Hvl : length values = length edges).
  { unfold values, torch_ones, torch_zeros.
    rewrite length_app, !length_replicate. unfold edges. by rewrite length_app. }
  pose proof (Hperm (length edges) (rng_state w2)) as Hmask2.
  set (mask2 := (torch_randperm (length edges) (rng_state w2)).1) in *.
  destruct (mapM_lookup_perm edges mask2 Hmask2) as (sedges & Hse & Hpse).
  destruct (mapM_lookup_perm values mask2) as (svalues & Hsv & Hpsv); [by rewrite Hvl|].
  rewrite (bind_index_select _ _ _ _ _ Hse), (bind_index_select _ _ _ _ _ Hsv).
  exists sedges, svalues, (torch_randperm (length edges) (rng_state w2)).2.
  split; [done|]. split; [by rewrite Hpse, Hpsv|].
  rewrite Hpsv. unfold values. by rewrite Hpos, Hnegl.
Qed.

(** X9: when the sampler returns [k] negative pairs (it may return fewer
    than the [E] requested) and all nodes have a row, the dataset has
    [E + k] rows with [E] labels 1 and [k] labels 0: it is balanced only
    when [k = E]. *)
Theorem edge_dataset_label_counts (g : DGLGraph) (embs : list (list scalar)) (w : world) :
  randperm_law -> embedded embs (dgl_edges g) ->
  embedded embs (negatives g (rng_state w)) ->
  let k := length (negatives g (rng_state w)) in
  exists edges values w',
    edge_dataset g embs w = (Py.Ok (edges, values), w') /\
    length edges = num_edges g + k /\ length values = num_edges g + k /\
    count_occ Z.eq_dec values 1%Z = num_edges g /\
    count_occ Z.eq_dec values 0%Z = k.
Proof.
  intros Hperm Hemb Hneg k.
  destruct (edge_dataset_ok g embs w Hperm Hemb Hneg) as (edges & values & r & Hrun & Hl & Hp).
  exists edges, values, (reseed w r). split; [done|].
  pose proof (proj1 (Permutation_count_occ Z.eq_dec _ _) Hp) as Hocc.
  assert (Hlen : length values = num_edges g + k).
  { rewrite (Permutation_length Hp). unfold torch_ones, torch_zeros.
    by rewrite length_app, !length_replicate. }
  split; [by rewrite Hl|]. split; [done|].
  rewrite !Hocc. unfold torch_ones, torch_zeros.
  rewrite !count_occ_app, !count_occ_replicate_eq.
  rewrite !count_occ_replicate_ne by done. split; lia.
Qed.

(** X10: when an endpoint of an edge or of a sampled negative pair has no
    row in the embedding matrix, building the dataset raises [IndexError];
    nothing but the generator has changed by then. *)
Theorem edge_dataset_index_error (g : DGLGraph) (embs : list (list scalar)) (w : world) :
  randperm_law ->
  ~ (embedded embs (dgl_edges g) /\ embedded embs (negatives g (rng_state w))) ->
  exists r, edge_dataset g embs w = (Py.Raise Py.IndexError, reseed w r).
Proof.
  intros Hperm Hnot. unfold edge_dataset.
  rewrite bind_random. unfold negatives, embedded in Hnot.
  set (negative := (global_uniform_negative_sampling g (num_edges g) (rng_state w)).1) in *.
  set (w1 := reseed w _).
  rewrite bind_random.
  pose proof (Hperm (num_edges g) (rng_state w1)) as Hmask.
  set (mask := (torch_randperm (num_edges g) (rng_state w1)).1) in *.
  set (w2 := reseed w1 _).
  exists (rng_state w2).
  destruct (mapM_lookup_perm (dgl_edges g).*1 mask) as (us & Hus' & Hpus);
    [by rewrite length_fmap|].
  destruct (mapM_lookup_perm (dgl_edges g).*2 mask) as (vs & Hvs' & Hpvs);
    [by rewrite length_fmap|].
  rewrite (bind_index_select _ _ _ _ _ Hus'), (bind_index_select _ _ _ _ _ Hvs').
  destruct (decide (Forall (fun i => i < length embs) (dgl_edges g).*1)) as [Hus|Hus].
  2:{ rewrite bind_index_select_fail; [done|].
      apply mapM_lookup_out_of_range. by rewrite Hpus. }
  destruct (gather_rows embs _ us Hus Hpus) as (eus & Heus & _).
  rewrite (bind_index_select _ _ _ _ _ Heus).
  destruct (decide (Forall (fun i => i < length embs) (dgl_edges g).*2)) as [Hvs|Hvs].
  2:{ rewrite bind_index_select_fail; [done|].
      apply mapM_lookup_out_of_range. by rewrite Hpvs. }
  destruct (gather_rows embs _ vs Hvs Hpvs) as (evs & Hevs & _).
  rewrite (bind_index_select _ _ _ _ _ Hevs).
  destruct (decide (Forall (fun i => i < length embs) negative.*1)) as [Hnus|Hnus].
  2:{ rewrite bind_index_select_fail; [done|]. by apply mapM_lookup_out_of_range. }
  destruct (gather_rows embs _ negative.*1 Hnus (reflexivity _)) as (enus & Henus & _).
  rewrite (bind_index_select _ _ _ _ _ Henus).
  destruct (decide (Forall (fun i => i < length embs) negative.*2)) as [Hnvs|Hnvs].
  2:{ rewrite bind_index_select_fail; [done|]. by apply mapM_lookup_out_of_range. }
  by destruct Hnot.
Qed.

Lemma getitem_int_ok {A} (t : list A) (i : Z) :
  (- Z.of_nat (length t) <= i < Z.of_nat (length t))%Z ->
  exists x, getitem_int t i = Py.Ok x /\
            t !! Z.to_nat (if (i <? 0)%Z then i + Z.of_nat (length t) else i)%Z = Some x.
Proof.
  intros Hi. unfold getitem_int.
  set (j := (if (i <? 0)%Z then (i + Z.of_nat (length t))%Z else i)).
  assert (Hj : (0 <= j < Z.of_nat (length t))%Z) by (unfold j; case_match; lia).
  destruct (j <? 0)%Z eqn:Hneg; [lia|].
  destruct (lookup_lt_is_Some_2 t (Z.to_nat j)) as [x Hx]; [lia|].
  exists x. by rewrite Hx.
Qed.

Lemma getitem_int_error {A} (t : list A) (i : Z) :
  ~ (- Z.of_nat (length t) <= i < Z.of_nat (length t))%Z ->
  getitem_int t i = Py.Raise Py.IndexError.
Proof.
  intros Hi. unfold getitem_int.
  set (j := (if (i <? 0)%Z then (i + Z.of_nat (length t))%Z else i)).
  destruct (j <? 0)%Z eqn:Hneg; [done|].
  assert (Hj : (Z.of_nat (length t) <= j)%Z) by (unfold j in *; case_match; lia).
  rewrite lookup_ge_None_2; [done|lia].
Qed.

(** X11: on a matrix of [n] rows, [_get_edge_embedding(emb, a, b)] returns
    a vector exactly when both indices lie in [-n, n), and raises
    [IndexError] otherwise (always, on an empty matrix). *)
Theorem _get_edge_embedding_in_range (emb : list (list scalar)) (a b : Z) :
  let n := Z.of_nat (length emb) in
  ((- n <= a < n)%Z /\ (- n <= b < n)%Z ->
   exists v, _get_edge_embedding emb a b = Py.Ok v) /\
  (~ ((- n <= a < n)%Z /\ (- n <= b < n)%Z) ->
   _get_edge_embedding emb a b = Py.Raise Py.IndexError).
Proof.
  intros n. split.
  - intros [Ha Hb]. unfold _get_edge_embedding.
    destruct (getitem_int_ok emb a Ha) as (ea & -> & _).
    destruct (getitem_int_ok emb b Hb) as (eb & -> & _). by eexists.
  - intros Hnot. unfold _get_edge_embedding.
    destruct (decide (- n <= a < n)%Z) as [Ha|Ha].
    + destruct (getitem_int_ok emb a Ha) as (ea & -> & _).
      rewrite getitem_int_error; [done|]. intros Hb. by destruct Hnot.
    + by rewrite getitem_int_error.
Qed.

(** X12: a negative index counts rows from the end: for [-n <= a < 0] and
    [-n <= b < 0], indices [a] and [a + n] (and [b], [b + n]) give the same
    edge embedding, the product of rows [a + n] and [b + n]. *)
Theorem _get_edge_embedding_negative_index (emb : list (list scalar)) (a b : Z)
    (ea eb : list scalar) :
  let n := Z.of_nat (length emb) in
  (- n <= a < 0)%Z -> (- n <= b < 0)%Z ->
  emb !! Z.to_nat (a + n) = Some ea -> emb !! Z.to_nat (b + n) = Some eb ->
  _get_edge_embedding emb a b = Py.Ok (np_multiply ea eb) /\
  _get_edge_embedding emb (a + n) b = Py.Ok (np_multiply ea eb) /\
  _get_edge_embedding emb a (b + n) = Py.Ok (np_multiply ea eb) /\
  _get_edge_embedding emb (a + n) (b + n) = Py.Ok (np_multiply ea eb).
Proof.
  intros n Ha Hb Hea Heb.
  assert (Hga : getitem_int emb a = Py.Ok ea).
  { destruct (getitem_int_ok emb a) as (x & Hx & Hl); [lia|]. rewrite Hx.
    destruct (a <? 0)%Z eqn:Hneg; [|lia]. fold n in Hl. congruence. }
  assert (Hga' : getitem_int emb (a + n) = Py.Ok ea).
  { destruct (getitem_int_ok emb (a + n)) as (x & Hx & Hl); [lia|]. rewrite Hx.
    destruct (a + n <? 0)%Z eqn:Hneg; [lia|]. congruence. }
  assert (Hgb : getitem_int emb b = Py.Ok eb).
  { destruct (getitem_int_ok emb b) as (x & Hx & Hl); [lia|]. rewrite Hx.
    destruct (b <? 0)%Z eqn:Hneg; [|lia]. fold n in Hl. congruence. }
  assert (Hgb' : getitem_int emb (b + n) = Py.Ok eb).
  { destruct (getitem_int_ok emb (b + n)) as (x & Hx & Hl); [lia|]. rewrite Hx.
    destruct (b + n <? 0)%Z eqn:Hneg; [lia|]. congruence. }
  unfold _get_edge_embedding. by rewrite Hga, Hga', Hgb, Hgb'.
Qed.

End Dataset.
End dataset_facts.

(** ** Keyword arguments of the trainers *)
Module training_keyword_facts.
Import training.

Section Keywords.
Context {Graph value Model : Type}.
Variable run_trainer : trainer -> Graph -> gmap string value -> Py.res Model.
Variable str : string -> value.

Lemma union_singleton_present (kwargs : gmap string value) (key : string) (v frozen : value) :
  kwargs !! key = Some v -> kwargs ∪ {[ key := frozen ]} = kwargs.
Proof.
  intros Hk. apply map_eq. intros i. rewrite lookup_union.
  destruct (decide (i = key)) as [->|Hne].
  - by rewrite Hk, lookup_singleton_eq.
  - rewrite lookup_singleton_ne by done. by destruct (kwargs !! i).
Qed.

(** X13: a [sampler_type] passed by the caller replaces the one frozen in
    the table, so that with it "egi" and "triangle" make the same call;
    without it the frozen value is added to the caller's keywords; and
    "graphsage" passes the caller's keywords on unchanged. *)
Theorem train_keywords (graph : Graph) (kwargs : gmap string value) (log : list call) :
  (forall v,
     kwargs !! "sampler_type" = Some v ->
     train run_trainer str "egi" graph kwargs log =
       (run_trainer train_egi_encoder graph kwargs,
        log ++ [Call train_egi_encoder graph kwargs]) /\
     train run_trainer str "triangle" graph kwargs log =
       train run_trainer str "egi" graph kwargs log) /\
  (kwargs !! "sampler_type" = None ->
   train run_trainer str "egi" graph kwargs log =
     (run_trainer train_egi_encoder graph (<["sampler_type" := str "egi"]> kwargs),
      log ++ [Call train_egi_encoder graph (<["sampler_type" := str "egi"]> kwargs)]) /\
   train run_trainer str "triangle" graph kwargs log =
     (run_trainer train_egi_encoder graph (<["sampler_type" := str "triangle"]> kwargs),
      log ++ [Call train_egi_encoder graph (<["sampler_type" := str "triangle"]> kwargs)])) /\
  train run_trainer str "graphsage" graph kwargs log =
    (run_trainer train_graphsage_encoder graph kwargs,
     log ++ [Call train_graphsage_encoder graph kwargs]).
Proof.
  assert (Hegi : forall frozen,
    Py.bind (Py.modify (fun l => l ++ [Call train_egi_encoder graph (kwargs ∪ frozen)]))
      (fun _ => Py.lift (run_trainer train_egi_encoder graph (kwargs ∪ frozen))) log
    = (run_trainer train_egi_encoder graph (kwargs ∪ frozen),
       log ++ [Call train_egi_encoder graph (kwargs ∪ frozen)])) by done.
  split; [|split].
  - intros v Hv.
    assert (He : train run_trainer str "egi" graph kwargs log =
                   (run_trainer train_egi_encoder graph kwargs,
                    log ++ [Call train_egi_encoder graph kwargs])).
    { change (train run_trainer str "egi" graph kwargs log) with
        (Py.bind (Py.modify (fun l => l ++
                    [Call train_egi_encoder graph (kwargs ∪ {[ "sampler_type" := str "egi" ]})]))
           (fun _ => Py.lift (run_trainer train_egi_encoder graph
                                (kwargs ∪ {[ "sampler_type" := str "egi" ]}))) log).
      rewrite Hegi. by rewrite (union_singleton_present _ _ _ _ Hv). }
    split; [exact He|]. rewrite He.
    change (train run_trainer str "triangle" graph kwargs log) with
      (Py.bind (Py.modify (fun l => l ++
                  [Call train_egi_encoder graph
                     (kwargs ∪ {[ "sampler_type" := str "triangle" ]})]))
         (fun _ => Py.lift (run_trainer train_egi_encoder graph
                              (kwargs ∪ {[ "sampler_type" := str "triangle" ]}))) log).
    rewrite Hegi. by rewrite (union_singleton_present _ _ _ _ Hv).
  - intros Hnone. split.
    + change (train run_trainer str "egi" graph kwargs log) with
        (Py.bind (Py.modify (fun l => l ++
                    [Call train_egi_encoder graph (kwargs ∪ {[ "sampler_type" := str "egi" ]})]))
           (fun _ => Py.lift (run_trainer train_egi_encoder graph
                                (kwargs ∪ {[ "sampler_type" := str "egi" ]}))) log).
      rewrite Hegi. by rewrite <- insert_union_singleton_r.
    + change (train run_trainer str "triangle" graph kwargs log) with
        (Py.bind (Py.modify (fun l => l ++
                    [Call train_egi_encoder graph
                       (kwargs ∪ {[ "sampler_type" := str "triangle" ]})]))
           (fun _ => Py.lift (run_trainer train_egi_encoder graph
                                (kwargs ∪ {[ "sampler_type" := str "triangle" ]}))) log).
      rewrite Hegi. by rewrite <- insert_union_singleton_r.
  - change (train run_trainer str "graphsage" graph kwargs log) with
      (Py.bind (Py.modify (fun l => l ++ [Call train_graphsage_encoder graph (kwargs ∪ ∅)]))
         (fun _ => Py.lift (run_trainer train_graphsage_encoder graph (kwargs ∪ ∅))) log).
    rewrite (right_id_L ∅ (∪) kwargs). done.
Qed.

End Keywords.
End training_keyword_facts.

(** ** The sweep scripts: registration and the averaging loops at their edges *)
Module sweep_edge_facts.
Import pyobj wandb sweep_spec Py_facts sweep_facts import_facts.

Section Registration.
Variable match_args :
  list argparse.argument -> list string -> Py.res (gmap string string).
Variable new_sweep_id : dict -> string.
Variable current_date_time : string.

Lemma airport_main_ok (argv : list string) (raw : gmap string string) (m : string)
    (parameters : dict) (w : world) :
  match_args sweep_airport.parser argv = Py.Ok raw ->
  raw !! "model" = Some m -> m ∈ model_choices ->
  dict_get (sweep_config w) "parameters" = Some (PDict parameters) ->
  let cfg := named_config current_date_time (sweep_config w) parameters m in
  sweep_airport.main match_args new_sweep_id current_date_time argv w =
    (Py.Ok tt,
     World cfg (controller w) (config w) (summary w)
       (trace w ++ [sweep cfg None None; agent (new_sweep_id cfg) "train"])).
Proof.
  intros Hraw Hm Hin Hparams cfg. unfold sweep_airport.main.
  assert (Hparse : argparse.parse_args match_args sweep_airport.parser argv w
                   = (Py.Ok (<["model" := Some m]> ∅), w)).
  { unfold argparse.parse_args. rewrite Hraw.
    unfold sweep_airport.parser, Py.lift. cbn [argparse.get_values].
    unfold argparse.get_value. cbn [argparse.dest argparse.choices]. rewrite Hm.
    fold model_choices. by rewrite bool_decide_eq_true_2. }
  rewrite (bind_ok _ _ _ _ _ Hparse).
  rewrite (bind_getattr _ "model" (Some m)) by apply lookup_insert_eq.
  unfold sweep_airport.add_name, sweep_airport.add_model_parameter, set_sweep_config,
    emit, Py.get, Py.modify, Py.ret, Py.bind.
  cbn [sweep_config controller config summary trace format of_option].
  rewrite dict_get_set_ne by done. rewrite Hparams.
  cbn [sweep_config controller config summary trace].
  fold (named_config current_date_time (sweep_config w) parameters m). fold cfg.
  by rewrite <- app_assoc.
Qed.

(** X14: with a model among the choices, [sweep_airport.main] adds the
    "name" entry and the "model" parameter to [sweep_config], registers one
    sweep with that configuration (no project or entity argument), and
    starts the agent on the id the service returned, with [train]. *)
Theorem airport_registers_sweep (argv : list string) (raw : gmap string string)
    (m : string) (parameters : dict) (w : world) :
  match_args sweep_airport.parser argv = Py.Ok raw ->
  raw !! "model" = Some m -> m ∈ model_choices ->
  dict_get (sweep_config w) "parameters" = Some (PDict parameters) ->
  exists cfg,
    sweep_airport.main match_args new_sweep_id current_date_time argv w =
      (Py.Ok tt,
       World cfg (controller w) (config w) (summary w)
         (trace w ++ [sweep cfg None None; agent (new_sweep_id cfg) "train"])) /\
    dict_get cfg "name" = Some (PStr (m +:+ " (" +:+ current_date_time +:+ ")")) /\
    exists parameters',
      dict_get cfg "parameters" = Some (PDict parameters') /\
      dict_get parameters' "model" = Some (PDict [("value", PStr m)]).
Proof.
  intros Hraw Hm Hin Hparams.
  exists (named_config current_date_time (sweep_config w) parameters m).
  split; [exact (airport_main_ok _ _ _ _ _ Hraw Hm Hin Hparams)|]. split.
  - unfold named_config. rewrite dict_get_set_ne by done. apply dict_get_set_eq.
  - eexists. split; apply dict_get_set_eq.
Qed.

(** X15: registering the sweep leaves every other setting as it was: in
    the final [sweep_config] each top-level key but "name" and
    "parameters" has its old value, and under "parameters" each
    hyperparameter but "model" has its old description. *)
Theorem airport_keeps_other_settings (argv : list string) (raw : gmap string string)
    (m : string) (parameters : dict) (w : world) :
  match_args sweep_airport.parser argv = Py.Ok raw ->
  raw !! "model" = Some m -> m ∈ model_choices ->
  dict_get (sweep_config w) "parameters" = Some (PDict parameters) ->
  let w' := (sweep_airport.main match_args new_sweep_id current_date_time argv w).2 in
  (forall key, key <> "name" -> key <> "parameters" ->
     dict_get (sweep_config w') key = dict_get (sweep_config w) key) /\
  exists parameters',
    dict_get (sweep_config w') "parameters" = Some (PDict parameters') /\
    forall p, p <> "model" -> dict_get parameters' p = dict_get parameters p.
Proof.
  intros Hraw Hm Hin Hparams w'. unfold w'.
  rewrite (airport_main_ok _ _ _ _ _ Hraw Hm Hin Hparams).
  cbn [snd sweep_config]. unfold named_config. split.
  - intros key Hn Hp. by rewrite !dict_get_set_ne.
  - eexists. split; [apply dict_get_set_eq|].
    intros p Hp. by rewrite dict_get_set_ne.
Qed.

End Registration.

Section Loops.

Lemma range_nonpositive (n : Z) : (n <= 0)%Z -> Py.range n = [].
Proof. intros Hn. unfold Py.range. by rewrite Z2Nat.nonpos. Qed.

Lemma config_int_ok (key : string) (missing : Py.exn) (n : Z) (w : world) :
  config w !! key = Some (PInt n) -> config_int key missing w = (Py.Ok n, w).
Proof. intros Hn. unfold config_int, Py.bind, Py.get. by rewrite Hn. Qed.

(** X16: with a configured run count [n <= 0] no run is made, and the two
    scripts part: [sweep_airport.train] stops on the division of its empty
    sum by 0, logging nothing; [sweep_runner] does the same for [n = 0],
    but for [n < 0] it logs the average 0 and finishes. *)
Theorem nonpositive_run_count (do_run_a do_run_t : Py.M world unit)
    (default_config : gmap string pyval) (n : Z) (wa wt : world) :
  (n <= 0)%Z ->
  config (initialised wa ∅) !! "n_runs" = Some (PInt n) ->
  config (initialised wt default_config) !! "sweep_n_runs" = Some (PInt n) ->
  sweep_airport.train do_run_a wa = (Py.Raise Py.ZeroDivisionError, initialised wa ∅) /\
  (n = 0%Z ->
   sweep_triangle_detection.sweep_runner do_run_t default_config wt
     = (Py.Raise Py.ZeroDivisionError, initialised wt default_config)) /\
  ((n < 0)%Z ->
   exists avg : Q,
     sweep_triangle_detection.sweep_runner do_run_t default_config wt
       = (Py.Ok tt, logged (initialised wt default_config) "avg_target_accuracy" avg) /\
     (avg == 0)%Q).
Proof.
  intros Hn Hna Hnt.
  assert (Hrunner : forall r w,
    truediv 0%Q n (initialised wt default_config) = (r, w) ->
    sweep_triangle_detection.sweep_runner do_run_t default_config wt =
      match r with
      | Py.Ok avg => (Py.Ok tt, logged w "avg_target_accuracy" avg)
      | Py.Raise e => (Py.Raise e, w)
      end).
  { intros r w Hdiv. unfold sweep_triangle_detection.sweep_runner.
    unfold Py.bind at 1. cbn [wandb_init Py.bind Py.modify emit].
    fold (initialised wt default_config).
    unfold Py.bind at 1. rewrite (config_int_ok _ _ _ _ Hnt).
    rewrite range_nonpositive by done. cbn [sweep_triangle_detection.runner_loop].
    unfold Py.bind at 1. cbn [Py.ret].
    unfold Py.bind at 1. rewrite (config_int_ok _ _ _ _ Hnt).
    unfold Py.bind at 1. rewrite Hdiv.
    destruct r; [|done]. unfold logged, emit, Py.modify. cbn. by rewrite <- app_assoc. }
  split; [|split].
  - unfold sweep_airport.train.
    unfold Py.bind at 1. cbn [wandb_init Py.bind Py.modify emit].
    fold (initialised wa ∅).
    unfold Py.bind at 1. rewrite (config_int_ok _ _ _ _ Hna).
    rewrite range_nonpositive by done. cbn [sweep_airport.train_loop].
    unfold Py.bind at 1. cbn [Py.ret]. done.
  - intros ->. by apply (Hrunner (Py.Raise _)).
  - intros Hneg.
    exists (0 / inject_Z n)%Q. split.
    + apply (Hrunner (Py.Ok _)). unfold truediv.
      destruct (n =? 0)%Z eqn:Hz; [lia|done].
    + unfold Qdiv. ring.
Qed.

Lemma train_loop_fails (do_run : Py.M world unit) (w w1 : world) (vs : list Q)
    (w2 : world) :
  runs_yield do_run "target-classifier-accuracy" w vs w1 ->
  forall (range_ : list Z) (results : list Q) (e : Py.exn),
    length vs < length range_ ->
    (do_run w1 = (Py.Raise e, w2) \/
     (do_run w1 = (Py.Ok tt, w2) /\ summary w2 !! "target-classifier-accuracy" = None /\
      e = Py.KeyError "target-classifier-accuracy")) ->
    sweep_airport.train_loop do_run range_ results w = (Py.Raise e, w2).
Proof.
  induction 1 as [w|w wm w1 v vs Hrun Hv _ IH]; intros range_ results e Hlen Hfail.
  - destruct range_ as [|i range_]; [simpl in Hlen; lia|].
    cbn [sweep_airport.train_loop]. unfold Py.bind at 1.
    destruct Hfail as [->|(-> & Hnone & ->)]; [done|].
    unfold Py.bind at 1, summary_get, Py.bind at 1, Py.get, Py.getitem. by rewrite Hnone.
  - destruct range_ as [|i range_]; [simpl in Hlen; lia|]. simpl in Hlen.
    cbn [sweep_airport.train_loop]. unfold Py.bind at 1. rewrite Hrun.
    unfold Py.bind at 1, summary_get, Py.bind at 1, Py.get, Py.getitem. rewrite Hv.
    unfold Py.ret. apply IH; [lia|exact Hfail].
Qed.

Lemma runner_loop_fails (do_run : Py.M world unit) (w w1 : world) (vs : list Q)
    (w2 : world) :
  runs_yield do_run "target-accuracy" w vs w1 ->
  forall (range_ : list Z) (acc : Q) (e : Py.exn),
    length vs < length range_ ->
    (do_run w1 = (Py.Raise e, w2) \/
     (do_run w1 = (Py.Ok tt, w2) /\ summary w2 !! "target-accuracy" = None /\
      e = Py.KeyError "target-accuracy")) ->
    sweep_triangle_detection.runner_loop do_run range_ acc w = (Py.Raise e, w2).
Proof.
  induction 1 as [w|w wm w1 v vs Hrun Hv _ IH]; intros range_ acc e Hlen Hfail.
  - destruct range_ as [|i range_]; [simpl in Hlen; lia|].
    cbn [sweep_triangle_detection.runner_loop]. unfold Py.bind at 1.
    destruct Hfail as [->|(-> & Hnone & ->)]; [done|].
    unfold Py.bind at 1, summary_get, Py.bind at 1, Py.get, Py.getitem. by rewrite Hnone.
  - destruct range_ as [|i range_]; [simpl in Hlen; lia|]. simpl in Hlen.
    cbn [sweep_triangle_detection.runner_loop]. unfold Py.bind at 1. rewrite Hrun.
    unfold Py.bind at 1, summary_get, Py.bind at 1, Py.get, Py.getitem. rewrite Hv.
    unfold Py.ret. apply IH; [lia|exact Hfail].
Qed.

Lemma length_range_Z (n : Z) : length (Py.range n) = Z.to_nat n.
Proof. unfold Py.range. by rewrite length_fmap, length_seq. Qed.

(** X17: when, after some runs that went through, a run raises, or
    returns without leaving its accuracy in [wandb.summary] (a [KeyError]),
    [sweep_airport.train] and [sweep_runner] end with that exception in
    the state the run left: no average is logged and [wandb.finish] is not
    called. *)
Theorem failing_run_logs_nothing (do_run_a do_run_t : Py.M world unit)
    (default_config : gmap string pyval) (n : Z) (vs : list Q)
    (wa wa1 wa2 wt wt1 wt2 : world) (ea et : Py.exn) :
  (Z.of_nat (length vs) < n)%Z ->
  config (initialised wa ∅) !! "n_runs" = Some (PInt n) ->
  runs_yield do_run_a "target-classifier-accuracy" (initialised wa ∅) vs wa1 ->
  (do_run_a wa1 = (Py.Raise ea, wa2) \/
   (do_run_a wa1 = (Py.Ok tt, wa2) /\ summary wa2 !! "target-classifier-accuracy" = None /\
    ea = Py.KeyError "target-classifier-accuracy")) ->
  config (initialised wt default_config) !! "sweep_n_runs" = Some (PInt n) ->
  runs_yield do_run_t "target-accuracy" (initialised wt default_config) vs wt1 ->
  (do_run_t wt1 = (Py.Raise et, wt2) \/
   (do_run_t wt1 = (Py.Ok tt, wt2) /\ summary wt2 !! "target-accuracy" = None /\
    et = Py.KeyError "target-accuracy")) ->
  sweep_airport.train do_run_a wa = (Py.Raise ea, wa2) /\
  sweep_triangle_detection.sweep_runner do_run_t default_config wt = (Py.Raise et, wt2).
Proof.
  intros Hn Hna Hra Hfa Hnt Hrt Hft.
  assert (Hlen : length vs < length (Py.range n)) by (rewrite length_range_Z; lia).
  split.
  - unfold sweep_airport.train.
    unfold Py.bind at 1. cbn [wandb_init Py.bind Py.modify emit].
    fold (initialised wa ∅).
    unfold Py.bind at 1. rewrite (config_int_ok _ _ _ _ Hna).
    apply bind_raise. eapply train_loop_fails; [exact Hra|exact Hlen|exact Hfa].
  - unfold sweep_triangle_detection.sweep_runner.
    unfold Py.bind at 1. cbn [wandb_init Py.bind Py.modify emit].
    fold (initialised wt default_config).
    unfold Py.bind at 1. rewrite (config_int_ok _ _ _ _ Hnt).
    apply bind_raise. eapply runner_loop_fails; [exact Hrt|exact Hlen|exact Hft].
Qed.

(** X18: [sweep_runner] divides by the run count it reads again after the
    loop: if the runs yielded [vs] and the configuration then says [m]
    (not 0), the logged average is the sum of [vs] over [m], whatever the
    number of runs that were made. *)
Theorem sweep_runner_divides_by_final_count (do_run : Py.M world unit)
    (default_config : gmap string pyval) (vs : list Q) (m : Z) (wt wt' : world) :
  config (initialised wt default_config) !! "sweep_n_runs"
    = Some (PInt (Z.of_nat (length vs))) ->
  runs_yield do_run "target-accuracy" (initialised wt default_config) vs wt' ->
  config wt' !! "sweep_n_runs" = Some (PInt m) -> m <> 0%Z ->
  exists avg : Q,
    sweep_triangle_detection.sweep_runner do_run default_config wt
      = (Py.Ok tt, logged wt' "avg_target_accuracy" avg) /\
    (avg == fold_right Qplus 0 vs / inject_Z m)%Q.
Proof.
  intros Hn Hruns Hm Hm0.
  pose proof (runner_loop_spec _ _ _ _ Hruns (Py.range (Z.of_nat (length vs))) 0%Q
                (length_range _)) as Hloop.
  exists (fold_left Qplus vs 0 / inject_Z m)%Q. split.
  - unfold sweep_triangle_detection.sweep_runner.
    unfold Py.bind at 1. cbn [wandb_init Py.bind Py.modify emit].
    fold (initialised wt default_config).
    unfold Py.bind at 1. rewrite (config_int_ok _ _ _ _ Hn).
    unfold Py.bind at 1. rewrite Hloop.
    unfold Py.bind at 1. rewrite (config_int_ok _ _ _ _ Hm).
    unfold Py.bind at 1, truediv. apply Z.eqb_neq in Hm0. rewrite Hm0.
    unfold logged, emit, Py.modify, Py.ret. cbn. by rewrite <- app_assoc.
  - rewrite fold_left_Qplus. by rewrite Qplus_0_l.
Qed.

End Loops.
End sweep_edge_facts.

(** ** Further properties at work on the small environment *)
Module more_witnesses.
Import clustered_experiment clustered_experiment_spec clustered_experiment_io.
Import pyobj sweep_spec witnesses.

Lemma toy_loaded (name : string) :
  name ∈ @GRAPH_FILES ->
  @loaded_graph toy.libs toy.world0 (joinpath toy.DATA_DIR name) = Some name.
Proof.
  unfold GRAPH_FILES. rewrite !elem_of_cons.
  intros H. repeat (destruct H as [->|H]; [vm_compute; reflexivity|]).
  by apply elem_of_nil in H.
Qed.

Lemma GRAPHS_loads_every_file_witness :
  exists G,
    @GRAPHS toy.libs toy.DATA_DIR toy.world0 = (Py.Ok G, toy.world0) /\
    @graph_at toy.libs G "poisson" "clustered" "target"
      = @loaded_graph toy.libs toy.world0
          (joinpath toy.DATA_DIR "poisson-clustered-100-1.edgelist").
Proof.
  destruct (@import_facts.GRAPHS_loads_every_file toy.libs toy.DATA_DIR toy.world0)
    as (G & Hrun & Hkeys).
  - intros name Hin. rewrite (toy_loaded name Hin). by eexists.
  - exists G. split; [exact Hrun|]. apply Hkeys.
    unfold GRAPH_KEYS. do 5 right. left.
Defined.

Lemma toy_loaded_missing (j : nat) (earlier : string) :
  j < 2 -> @GRAPH_FILES !! j = Some earlier ->
  is_Some (@loaded_graph toy.libs toy.world_missing (joinpath toy.DATA_DIR earlier)).
Proof.
  intros Hj Hl. exists earlier.
  destruct j as [|[|j]]; [| |lia]; injection Hl as <-; vm_compute; reflexivity.
Qed.

Lemma toy_missing (content : string) :
  fs toy.world_missing !! joinpath toy.DATA_DIR "powerlaw-unclustered-100-0.edgelist"
    <> Some (RegularFile content).
Proof. intros H. vm_compute in H. discriminate. Qed.

Lemma GRAPHS_exits_at_first_missing_file_witness :
  @GRAPHS toy.libs toy.DATA_DIR toy.world_missing =
    (Py.Raise (Py.SystemExit 1),
     @printed toy.libs toy.world_missing
       (missing_message (joinpath toy.DATA_DIR "powerlaw-unclustered-100-0.edgelist"))).
Proof.
  apply (@import_facts.GRAPHS_exits_at_first_missing_file toy.libs toy.DATA_DIR
           toy.world_missing 2 "powerlaw-unclustered-100-0.edgelist" eq_refl
           toy_loaded_missing toy_missing).
Defined.



Lemma _do_run_unknown_key_witness :
  @_do_run toy.libs toy.graphs "egi" "smallworld" "clustered" "unclustered" toy.world0
    = (Py.Raise (Py.KeyError "smallworld"), toy.world0).
Proof.
  apply (proj1 (@run_facts._do_run_unknown_key toy.libs toy.graphs "egi" "smallworld"
                  "clustered" "unclustered" toy.world0)).
  vm_compute. reflexivity.
Defined.


Lemma main_stops_at_failing_run_witness :
  exists w2 : @world toy.libs,
    @main toy.libs toy.shuffle "20240101T0000" ∅ toy.world0
      = (Py.Raise (Py.KeyError "poisson"), w2) /\
    exists evs,
      trace w2 = init_event "20240101T0000"
                   (Run "triangle" "poisson" "clustered" "unclustered" 0) :: evs /\
      Forall inside_run evs.
Proof.
  eexists.
  refine (@run_facts.main_stops_at_failing_run toy.libs toy.shuffle "20240101T0000" ∅
            "triangle" "poisson"
            [("triangle", "scalefree"); ("egi", "poisson"); ("egi", "scalefree")]
            toy.world0 _ (Py.KeyError "poisson") eq_refl _).
  reflexivity.
Defined.


Lemma edge_dataset_label_counts_witness :
  exists (edges : list (list Z)) (values : list Z) (w' : @world toy.libs),
    @edge_dataset toy.libs "poisson-clustered-100-0.edgelist" [[1; 2]; [3; 4]; [5; 6]]%Z
      toy.world0 = (Py.Ok (edges, values), w') /\
    length edges = 8 /\ count_occ Z.eq_dec values 1%Z = 4.
Proof.
  destruct (@dataset_facts.edge_dataset_label_counts toy.libs
              "poisson-clustered-100-0.edgelist" [[1; 2]; [3; 4]; [5; 6]]%Z toy.world0
              (law_randperm toy_lawful) (law_edges toy_lawful tt _)
              (law_negatives toy_lawful tt _ _))
    as (edges & values & w' & Hrun & Hl & _ & H1 & _).
  exists edges, values, w'. split; [exact Hrun|]. split; [exact Hl|exact H1].
Defined.

Lemma edge_dataset_index_error_witness :
  exists r : nat,
    @edge_dataset toy.libs "poisson-clustered-100-0.edgelist" [[1; 2]]%Z toy.world0
      = (Py.Raise Py.IndexError, @reseed toy.libs toy.world0 r).
Proof.
  apply (@dataset_facts.edge_dataset_index_error toy.libs
           "poisson-clustered-100-0.edgelist" [[1; 2]]%Z toy.world0
           (law_randperm toy_lawful)).
  intros [[Hus _] _]. simpl in Hus.
  apply Forall_cons in Hus as [_ Hus]. apply Forall_cons in Hus as [Hus _].
  simpl in Hus. lia.
Defined.

Lemma _get_edge_embedding_in_range_witness :
  @_get_edge_embedding toy.libs [[1; 2]; [3; 4]]%Z 0 2 = Py.Raise Py.IndexError.
Proof.
  apply (proj2 (@dataset_facts._get_edge_embedding_in_range toy.libs
                  [[1; 2]; [3; 4]]%Z 0 2)).
  simpl. lia.
Defined.

Lemma _get_edge_embedding_negative_index_witness :
  @_get_edge_embedding toy.libs [[1; 2]; [3; 4]; [5; 6]]%Z (-1) (-3)
    = Py.Ok [5; 12]%Z /\
  @_get_edge_embedding toy.libs [[1; 2]; [3; 4]; [5; 6]]%Z 2 0 = Py.Ok [5; 12]%Z.
Proof.
  destruct (@dataset_facts._get_edge_embedding_negative_index toy.libs
              [[1; 2]; [3; 4]; [5; 6]]%Z (-1) (-3) [5; 6]%Z [1; 2]%Z
              ltac:(simpl; lia) ltac:(simpl; lia) eq_refl eq_refl)
    as (H1 & _ & _ & H4).
  split; [exact H1|exact H4].
Defined.

Lemma train_keywords_witness :
  training.train (fun _ (g : nat) _ => Py.Ok g) (fun s => s) "egi" 7
    {[ "sampler_type" := "triangle" ]} []
  = (Py.Ok 7, [training.Call training.train_egi_encoder 7 {[ "sampler_type" := "triangle" ]}]).
Proof.
  destruct (proj1 (training_keyword_facts.train_keywords (fun _ (g : nat) _ => Py.Ok g)
                     (fun s => s) 7 {[ "sampler_type" := "triangle" ]} [])
              "triangle") as [He _].
  - apply lookup_singleton_eq.
  - rewrite He. reflexivity.
Defined.

Lemma airport_registers_sweep_witness :
  exists cfg,
    sweep_airport.main toy.match_args toy.new_sweep_id "2024-01-01 (T0000)" ["egi"]
      toy.airport_world
    = (Py.Ok tt,
       wandb.World cfg {[ "n_runs" := PInt 2 ]} ∅ ∅
         [wandb.sweep cfg None None; wandb.agent "sweep0" "train"]) /\
    dict_get cfg "name" = Some (PStr "egi (2024-01-01 (T0000))").
Proof.
  edestruct (sweep_edge_facts.airport_registers_sweep toy.match_args toy.new_sweep_id
               "2024-01-01 (T0000)" ["egi"] {[ "model" := "egi" ]} "egi"
               toy.airport_parameters toy.airport_world) as (cfg & Hrun & Hname & _).
  - reflexivity.
  - reflexivity.
  - apply list_elem_of_here.
  - reflexivity.
  - exists cfg. split; [exact Hrun|exact Hname].
Defined.

Lemma airport_keeps_other_settings_witness :
  dict_get
    (wandb.sweep_config
       (sweep_airport.main toy.match_args toy.new_sweep_id "2024-01-01 (T0000)" ["egi"]
          toy.airport_world).2) "method"
  = dict_get sweep_airport.sweep_config "method".
Proof.
  edestruct (sweep_edge_facts.airport_keeps_other_settings toy.match_args
               toy.new_sweep_id "2024-01-01 (T0000)" ["egi"] {[ "model" := "egi" ]}
               "egi" toy.airport_parameters toy.airport_world) as (Hkeys & _).
  - reflexivity.
  - reflexivity.
  - apply list_elem_of_here.
  - reflexivity.
  - apply Hkeys; discriminate.
Defined.

Lemma nonpositive_run_count_witness :
  exists avg : Q,
    sweep_triangle_detection.sweep_runner toy.broken_run ∅
      (wandb.World sweep_triangle_detection.sweep_config {[ "sweep_n_runs" := PInt (-2) ]}
         ∅ ∅ [])
    = (Py.Ok tt,
       logged
         (initialised
            (wandb.World sweep_triangle_detection.sweep_config
               {[ "sweep_n_runs" := PInt (-2) ]} ∅ ∅ []) ∅)
         "avg_target_accuracy" avg) /\
    (avg == 0)%Q.
Proof.
  refine (proj2 (proj2 (sweep_edge_facts.nonpositive_run_count toy.broken_run
                          toy.broken_run ∅ (-2)
                          (wandb.World sweep_airport.sweep_config
                             {[ "n_runs" := PInt (-2) ]} ∅ ∅ [])
                          (wandb.World sweep_triangle_detection.sweep_config
                             {[ "sweep_n_runs" := PInt (-2) ]} ∅ ∅ [])
                          _ _ _)) _).
  - lia.
  - reflexivity.
  - reflexivity.
  - lia.
Defined.

Lemma failing_run_logs_nothing_witness :
  sweep_airport.train toy.broken_run toy.airport_world
    = (Py.Raise (Py.ValueError "out of memory"), initialised toy.airport_world ∅) /\
  sweep_triangle_detection.sweep_runner toy.broken_run ∅ toy.triangle_world
    = (Py.Raise (Py.ValueError "out of memory"), initialised toy.triangle_world ∅).
Proof.
  refine (sweep_edge_facts.failing_run_logs_nothing toy.broken_run toy.broken_run ∅ 2 []
            toy.airport_world _ _ toy.triangle_world _ _ _ _ _ _ (yield_nil _ _ _) _
            _ (yield_nil _ _ _) _).
  - simpl. lia.
  - reflexivity.
  - left. reflexivity.
  - reflexivity.
  - left. reflexivity.
Defined.

Lemma sweep_runner_divides_by_final_count_witness :
  exists (wt' : wandb.world) (avg : Q),
    sweep_triangle_detection.sweep_runner (toy.do_run "target-accuracy") ∅ toy.triangle_world
      = (Py.Ok tt, logged wt' "avg_target_accuracy" avg) /\
    (avg == fold_right Qplus 0 [1 # 4; 8 # 16] / inject_Z 2)%Q.
Proof.
  eexists.
  refine (sweep_edge_facts.sweep_runner_divides_by_final_count
            (toy.do_run "target-accuracy") ∅ [1 # 4; 8 # 16]%Q 2 toy.triangle_world _
            _ _ _ _).
  - reflexivity.
  - eapply yield_cons; [reflexivity|reflexivity|].
    eapply yield_cons; [reflexivity|reflexivity|]. apply yield_nil.
  - reflexivity.
  - discriminate.
Defined.

End more_witnesses.
